(** * doc/conf.py: the Sphinx configuration module of the documentation site

    The module is a straight-line script: it star-imports the shared
    defaults of [nbsite.shared_conf], binds a handful of module-level names,
    extends the imported list [html_static_path] in place and merges eight
    entries into the imported dictionary [html_context] in place.

    The script is embedded as a computation in a state-and-exception monad
    over a Python-like state: a store of objects addressed by identity and
    the module's global namespace. *)

From Stdlib Require Import Ascii String.
From stdpp Require Import base option list strings gmap fin_maps.

Open Scope string_scope.
Open Scope list_scope.
Open Scope stdpp_scope.

(** ** Python values and objects *)

(** Object identities. *)
Definition loc := positive.

(** What a name, a container slot or a dictionary entry holds: an immutable
    scalar, or a reference to a container object of the store. The values of
    the model are Python's built-in ones: None, booleans, integers, strings
    and, by reference, plain tuples, lists and dictionaries. Instances of
    other classes (a deque, a UserDict, a subclass of dict) are outside
    it. *)
Inductive value :=
  | VNone
  | VBool (b : bool)
  | VInt (z : Z)
  | VStr (s : string)
  | VRef (l : loc).

(** Container objects. Dictionary keys are strings (the keys of a template
    context are template variable names). *)
Inductive object :=
  | OTuple (items : list value)
  | OList (items : list value)
  | ODict (entries : gmap string value).

Record state := State {
  objects : gmap loc object;     (* the object store *)
  globals : gmap string value    (* the namespace of the module *)
}.

(** Exceptions raised by the operations the script uses. [DanglingRef] is
    the model's answer to a reference without an object, which no Python
    state contains. *)
Inductive exn :=
  | NameError (name : string)
  | TypeError
  | AttributeError (attr : string)
  | DanglingRef (l : loc).

(** ** The monad of module execution *)

Definition M (A : Type) : Type := state → exn + A * state.

#[global] Instance M_ret : MRet M := λ A a st, inr (a, st).
#[global] Instance M_bind : MBind M := λ A B f m st,
  match m st with
  | inl e => inl e
  | inr (a, st') => f a st'
  end.

Definition raise {A} (e : exn) : M A := λ _, inl e.

(** A new object gets an identity that no object of the store has. *)
Definition alloc (o : object) : M value := λ st,
  let l := fresh (dom (objects st)) in
  inr (VRef l, State (<[l := o]> (objects st)) (globals st)).

(** Reading a name at module level. *)
Definition getglobal (x : string) : M value := λ st,
  match globals st !! x with
  | Some v => inr (v, st)
  | None => inl (NameError x)
  end.

(** [x = v] at module level. *)
Definition setglobal (x : string) (v : value) : M unit := λ st,
  inr ((), State (objects st) (<[x := v]> (globals st))).

(** The object a value refers to, if it is a reference. *)
Definition deref (v : value) : M (option object) := λ st,
  match v with
  | VRef l =>
      match objects st !! l with
      | Some o => inr (Some o, st)
      | None => inl (DanglingRef l)
      end
  | _ => inr (None, st)
  end.

(** Overwriting the object behind a reference: mutation in place. *)
Definition store (l : loc) (o : object) : M unit := λ st,
  inr ((), State (<[l := o]> (objects st)) (globals st)).

(** ** The operations of the script *)

(** [s + v] for a string literal [s]: concatenation when [v] is a string,
    [TypeError] otherwise. *)
Definition str_add (s : string) (v : value) : M value :=
  match v with
  | VStr t => mret (VStr (s +:+ t))
  | _ => raise TypeError
  end.

(** A tuple display [(v1, ..., vn)] and a list display [[v1, ..., vn]]. *)
Definition tuple (items : list value) : M value := alloc (OTuple items).
Definition list_display (items : list value) : M value := alloc (OList items).

(** A dictionary display [{k1: v1, ..., kn: vn}]: the entries are stored
    from left to right, a later entry replacing an earlier one with the same
    key. *)
Definition dict_entries (kvs : list (string * value)) : gmap string value :=
  foldl (λ d kv, <[kv.1 := kv.2]> d) ∅ kvs.
Definition dict_display (kvs : list (string * value)) : M value :=
  alloc (ODict (dict_entries kvs)).

(** [target += [v1, ..., vn]]: the list display is built, then a list
    target is extended in place by its items and the result is the target
    itself; every other target of the model has no in-place addition and
    cannot be added to a list, which is a [TypeError]. *)
Definition iadd_list (target : value) (items : list value) : M value :=
  list_display items;;
  o ← deref target;
  match target, o with
  | VRef l, Some (OList xs) => store l (OList (xs ++ items));; mret target
  | _, _ => raise TypeError
  end.

(** [target.update]: the attribute lookup. Of the objects of the model only
    a dictionary has the method; the result is the dictionary the method is
    bound to. *)
Definition getattr_update (target : value) : M loc :=
  o ← deref target;
  match target, o with
  | VRef l, Some (ODict _) => mret l
  | _, _ => raise (AttributeError "update")
  end.

(** [d.update({k1: v1, ..., kn: vn})] for the dictionary [d] at [l]: the
    display is built, then each of its entries is written into [d], in
    place; the entries of [d] under other keys stay. *)
Definition dict_update (l : loc) (kvs : list (string * value)) : M unit :=
  dict_display kvs;;
  o ← deref (VRef l);
  match o with
  | Some (ODict d) => store l (ODict (dict_entries kvs ∪ d))
  | _ => raise TypeError
  end.

(** ** The module *)

(** The body of [doc/conf.py], statement by statement. It runs in the state
    that [from nbsite.shared_conf import *] leaves: the names the import
    binds are in [globals], the objects they refer to in [objects]. *)
Definition conf : M unit :=
  setglobal "project" (VStr "HoloPlot");;
  setglobal "authors" (VStr "Philipp Rudiger");;
  authors ← getglobal "authors";
  copyright ← str_add "2017 " authors;
  setglobal "copyright" copyright;;
  setglobal "description"
    (VStr "A high-level plotting API for the PyData ecosystem built on HoloViews");;
  setglobal "version" (VStr "0.0.1");;
  setglobal "release" (VStr "0.0.1");;
  html_static_path ← getglobal "html_static_path";
  html_static_path ← iadd_list html_static_path [VStr "_static"];
  setglobal "html_static_path" html_static_path;;
  setglobal "html_theme" (VStr "sphinx_ioam_theme");;
  html_theme_options ← dict_display
    [("logo", VStr "pyviz-logo.png");
     ("favicon", VStr "favicon.ico")];
  setglobal "html_theme_options" html_theme_options;;
  nav1 ← tuple [VStr "Getting Started"; VStr "getting_started/index"];
  nav2 ← tuple [VStr "User Guide"; VStr "user_guide/index"];
  nav3 ← tuple [VStr "About"; VStr "about"];
  _NAV ← tuple [nav1; nav2; nav3];
  setglobal "_NAV" _NAV;;
  html_context ← getglobal "html_context";
  update ← getattr_update html_context;
  project ← getglobal "project";
  description ← getglobal "description";
  authors ← getglobal "authors";
  version ← getglobal "version";
  nav ← getglobal "_NAV";
  links ← getglobal "_NAV";
  social1 ← tuple [VStr "Gitter"; VStr "//gitter.im/ioam/holoviews"];
  social2 ← tuple [VStr "Github"; VStr "//github.com/pyviz/holoplot"];
  social ← tuple [social1; social2];
  dict_update update
    [("PROJECT", project);
     ("DESCRIPTION", description);
     ("AUTHOR", authors);
     ("WEBSITE_SERVER", VStr "https://pyviz.github.io/holoplot");
     ("VERSION", version);
     ("NAV", nav);
     ("LINKS", links);
     ("SOCIAL", social)].

(** ** Reading a state *)

(** The items of the tuple a value refers to. *)
Definition tuple_items (st : state) (v : value) : option (list value) :=
  match v with
  | VRef l =>
      match objects st !! l with
      | Some (OTuple vs) => Some vs
      | _ => None
      end
  | _ => None
  end.

(** The items of the list a value refers to. *)
Definition list_items (st : state) (v : value) : option (list value) :=
  match v with
  | VRef l =>
      match objects st !! l with
      | Some (OList vs) => Some vs
      | _ => None
      end
  | _ => None
  end.

(** The entries of the dictionary a value refers to. *)
Definition dict_of (st : state) (v : value) : option (gmap string value) :=
  match v with
  | VRef l =>
      match objects st !! l with
      | Some (ODict d) => Some d
      | _ => None
      end
  | _ => None
  end.

(** [html_context[k]] as the theme reads it from the loaded module. *)
Definition context_slot (st : state) (k : string) : option value :=
  v ← globals st !! "html_context"; d ← dict_of st v; d !! k.

(** A value that is a tuple of two strings, read as a pair. *)
Definition as_pair (st : state) (v : value) : option (string * string) :=
  match tuple_items st v with
  | Some [VStr a; VStr b] => Some (a, b)
  | _ => None
  end.

(** A value that is a tuple of such tuples, read as a table of pairs. *)
Definition pair_table (st : state) (v : value) :
    option (list (string * string)) :=
  vs ← tuple_items st v; mapM (as_pair st) vs.

(** A two-element tuple whose members are non-empty strings. *)
Definition nonempty_pair (st : state) (v : value) : Prop :=
  ∃ a b, tuple_items st v = Some [VStr a; VStr b] ∧ a ≠ "" ∧ b ≠ "".

(** A decimal digit, ['0'] to ['9']. *)
Definition is_digit (c : Ascii.ascii) : bool :=
  (48 <=? Ascii.N_of_ascii c)%N && (Ascii.N_of_ascii c <=? 57)%N.

(** Digits separated by single dots: one or more digits, then any number of
    groups of a dot and one or more digits. [after_digit] tells whether the
    character before the rest [s] was a digit. *)
Fixpoint dotted_numeric_from (after_digit : bool) (s : string) : bool :=
  match s with
  | EmptyString => after_digit
  | String c s' =>
      if is_digit c then dotted_numeric_from true s'
      else if Ascii.eqb c "."%char
           then after_digit && dotted_numeric_from false s'
           else false
  end.

Definition dotted_numeric (s : string) : bool := dotted_numeric_from false s.

(** The keys of the dictionary display passed to [html_context.update], in
    the order of the display. *)
Definition context_keys : list string :=
  ["PROJECT"; "DESCRIPTION"; "AUTHOR"; "WEBSITE_SERVER"; "VERSION";
   "NAV"; "LINKS"; "SOCIAL"].

(** The names the documentation tool reads from the module. *)
Definition exposed : list string :=
  ["project"; "authors"; "copyright"; "description"; "version"; "release";
   "html_static_path"; "html_theme"; "html_theme_options"; "html_context"].

(** ** The shared defaults *)

(** What the script needs of the state the star import leaves:
    [html_static_path] is bound to a list, [xs] at [ls], and [html_context]
    to a dictionary, [d0] at [lc]. *)
Definition shared_defaults (st0 : state) (ls : loc) (xs : list value)
    (lc : loc) (d0 : gmap string value) : Prop :=
  globals st0 !! "html_static_path" = Some (VRef ls) ∧
  objects st0 !! ls = Some (OList xs) ∧
  globals st0 !! "html_context" = Some (VRef lc) ∧
  objects st0 !! lc = Some (ODict d0).

(** [loads st0 st1]: run in [st0], the module body returns normally and
    leaves [st1]. *)
Definition loads (st0 st1 : state) : Prop := conf st0 = inr ((), st1).

(** Every name bound to a reference is bound to an object of the store, as
    in every Python state. *)
Definition bound_objects (st : state) : Prop :=
  ∀ x l, globals st !! x = Some (VRef l) → is_Some (objects st !! l).

(** Defaults in the shape of those of [nbsite.shared_conf]: a one-element
    static path and a context of include lists, next to other names. *)
Definition example_static_path : list value :=
  [VStr "/opt/nbsite/_shared_static"].

Definition example_context : gmap string value :=
  {[ "js_includes" := VRef 3%positive; "css_includes" := VRef 4%positive ]}.

Definition example_defaults : state :=
  State
    {[ 1%positive := OList example_static_path;
       2%positive := ODict example_context;
       3%positive := OList [VStr "custom.js"; VStr "require.js"];
       4%positive := OList [VStr "main.css"; VStr "custom.css"] ]}
    {[ "html_static_path" := VRef 1%positive;
       "html_context" := VRef 2%positive;
       "project" := VStr "Project" ]}.

(** Defaults with nothing in them: an empty static path and an empty
    context. *)
Definition bare_defaults : state :=
  State {[ 1%positive := OList []; 2%positive := ODict ∅ ]}
        {[ "html_static_path" := VRef 1%positive;
           "html_context" := VRef 2%positive ]}.

(** ** Weakest preconditions *)

(** [wp m Q st]: from [st] the computation [m] returns normally, with a
    result and a final state that satisfy [Q]. *)
Definition wp {A} (m : M A) (Q : A → state → Prop) (st : state) : Prop :=
  match m st with
  | inr (a, st') => Q a st'
  | inl _ => False
  end.

(** ** The state a successful run leaves *)

(** The entries the script merges into [html_context], given the identities
    of the navigation tuple and of the social-links tuple. *)
Definition context_entries (nav social : loc) : list (string * value) :=
  [("PROJECT", VStr "HoloPlot");
   ("DESCRIPTION",
    VStr "A high-level plotting API for the PyData ecosystem built on HoloViews");
   ("AUTHOR", VStr "Philipp Rudiger");
   ("WEBSITE_SERVER", VStr "https://pyviz.github.io/holoplot");
   ("VERSION", VStr "0.0.1");
   ("NAV", VRef nav);
   ("LINKS", VRef nav);
   ("SOCIAL", VRef social)].

(** The names the script binds, over the namespace [g] it starts from. *)
Definition bound_names (ls lt ln : loc) (g : gmap string value) :
    gmap string value :=
  <["_NAV" := VRef ln]> (
  <["html_theme_options" := VRef lt]> (
  <["html_theme" := VStr "sphinx_ioam_theme"]> (
  <["html_static_path" := VRef ls]> (
  <["release" := VStr "0.0.1"]> (
  <["version" := VStr "0.0.1"]> (
  <["description" :=
      VStr "A high-level plotting API for the PyData ecosystem built on HoloViews"]> (
  <["copyright" := VStr "2017 Philipp Rudiger"]> (
  <["authors" := VStr "Philipp Rudiger"]> (
  <["project" := VStr "HoloPlot"]> g))))))))).

(** The identities of the objects the script creates and keeps. *)
Record created := Created {
  id_theme : loc;
  id_nav : loc;
  id_nav1 : loc; id_nav2 : loc; id_nav3 : loc;
  id_social : loc;
  id_social1 : loc; id_social2 : loc
}.

(** [loaded st0 ls xs lc d0 ids st1]: [st1] is what the script makes of a
    state [st0] in which [html_static_path] is the list [xs] at [ls] and
    [html_context] the dictionary [d0] at [lc], the objects it creates being
    those at [ids]. *)
Record loaded (st0 : state) (ls : loc) (xs : list value) (lc : loc)
    (d0 : gmap string value) (ids : created) (st1 : state) : Prop := Loaded {
  ld_globals :
    globals st1 = bound_names ls (id_theme ids) (id_nav ids) (globals st0);
  ld_static_path : objects st1 !! ls = Some (OList (xs ++ [VStr "_static"]));
  ld_context :
    objects st1 !! lc =
      Some (ODict (dict_entries (context_entries (id_nav ids) (id_social ids))
                     ∪ d0));
  ld_theme_options :
    objects st1 !! id_theme ids =
      Some (ODict (dict_entries [("logo", VStr "pyviz-logo.png");
                                 ("favicon", VStr "favicon.ico")]));
  ld_nav :
    objects st1 !! id_nav ids =
      Some (OTuple [VRef (id_nav1 ids); VRef (id_nav2 ids); VRef (id_nav3 ids)]);
  ld_nav1 :
    objects st1 !! id_nav1 ids =
      Some (OTuple [VStr "Getting Started"; VStr "getting_started/index"]);
  ld_nav2 :
    objects st1 !! id_nav2 ids =
      Some (OTuple [VStr "User Guide"; VStr "user_guide/index"]);
  ld_nav3 :
    objects st1 !! id_nav3 ids = Some (OTuple [VStr "About"; VStr "about"]);
  ld_social :
    objects st1 !! id_social ids =
      Some (OTuple [VRef (id_social1 ids); VRef (id_social2 ids)]);
  ld_social1 :
    objects st1 !! id_social1 ids =
      Some (OTuple [VStr "Gitter"; VStr "//gitter.im/ioam/holoviews"]);
  ld_social2 :
    objects st1 !! id_social2 ids =
      Some (OTuple [VStr "Github"; VStr "//github.com/pyviz/holoplot"]);
  ld_frame :
    ∀ l, l ≠ ls → l ≠ lc → is_Some (objects st0 !! l) →
      objects st1 !! l = objects st0 !! l
}.

(** ** Two runs side by side *)

(** Two states hold the same objects and agree on the names in [X]. *)
Definition agree (X : list string) (st st' : state) : Prop :=
  objects st = objects st' ∧
  ∀ x, x ∈ X → globals st !! x = globals st' !! x.

(** Two runs end alike: with the same exception, or with the same result in
    states that agree on [X]. *)
Definition same_outcome {A} (X : list string) (r r' : exn + A * state) : Prop :=
  match r, r' with
  | inl e, inl e' => e = e'
  | inr (a, st), inr (a', st') => a = a' ∧ agree X st st'
  | _, _ => False
  end.

(** From states that agree on [X], [m] ends alike on [Y]. *)
Definition respects {A} (X Y : list string) (m : M A) : Prop :=
  ∀ st st', agree X st st' → same_outcome Y (m st) (m st').

(** ** Failures, frames and reloading *)

(** [outcome m Q E st]: from [st] the computation [m] returns with a
    result and a final state that satisfy [Q], or raises an exception that
    satisfies [E]. *)
Definition outcome {A} (m : M A) (Q : A → state → Prop) (E : exn → Prop)
    (st : state) : Prop :=
  match m st with
  | inr (a, st') => Q a st'
  | inl e => E e
  end.

(** A value that is no reference, or a reference to an object of the
    store. *)
Definition has_object (st : state) (v : value) : Prop :=
  ∀ l, v = VRef l → is_Some (objects st !! l).

(** Why loading raises [e] from [st]: html_static_path is unbound; or it
    is bound to a value of the model that is no list; or it is a list and
    html_context is unbound; or it is a list and html_context is bound to a
    value of the model that is no dictionary. *)
Definition failure_cause (st : state) (e : exn) : Prop :=
  (e = NameError "html_static_path" ∧
   globals st !! "html_static_path" = None) ∨
  (e = TypeError ∧
   ∃ v, globals st !! "html_static_path" = Some v ∧ list_items st v = None) ∨
  (e = NameError "html_context" ∧
   (∃ v xs, globals st !! "html_static_path" = Some v ∧
            list_items st v = Some xs) ∧
   globals st !! "html_context" = None) ∨
  (e = AttributeError "update" ∧
   (∃ v xs, globals st !! "html_static_path" = Some v ∧
            list_items st v = Some xs) ∧
   ∃ w, globals st !! "html_context" = Some w ∧ dict_of st w = None).

(** The names the script assigns, in the order of their first assignment. *)
Definition assigned : list string :=
  ["project"; "authors"; "copyright"; "description"; "version"; "release";
   "html_static_path"; "html_theme"; "html_theme_options"; "_NAV"].

(** The objects the script creates and keeps, in the order of creation. *)
Definition created_list (ids : created) : list loc :=
  [id_theme ids; id_nav1 ids; id_nav2 ids; id_nav3 ids; id_nav ids;
   id_social1 ids; id_social2 ids; id_social ids].

(** The created objects are pairwise distinct and none of them is an object
    of the store the script started from. *)
Definition created_new (st0 : state) (ids : created) : Prop :=
  NoDup (created_list ids) ∧
  ∀ l, l ∈ created_list ids → objects st0 !! l = None.

(** States with defaults the script cannot use. *)
Definition tuple_path_defaults : state :=
  State {[ 1%positive := OTuple [VStr "_shared_static"];
           2%positive := ODict ∅ ]}
        {[ "html_static_path" := VRef 1%positive;
           "html_context" := VRef 2%positive ]}.

Definition no_context_defaults : state :=
  State {[ 1%positive := OList [] ]}
        {[ "html_static_path" := VRef 1%positive ]}.

Definition list_context_defaults : state :=
  State {[ 1%positive := OList [] ]}
        {[ "html_static_path" := VRef 1%positive;
           "html_context" := VRef 1%positive ]}.

(** Defaults in which the static path list is shared: a second name and an
    entry of the context refer to the same list object. *)
Definition alias_defaults : state :=
  State {[ 1%positive := OList [VStr "_shared_static"];
           2%positive := ODict {[ "static_dirs" := VRef 1%positive ]} ]}
        {[ "html_static_path" := VRef 1%positive;
           "html_context" := VRef 2%positive;
           "shared_static_path" := VRef 1%positive ]}.

(** Defaults whose context already has entries under keys the script
    writes. *)
Definition stale_defaults : state :=
  State {[ 1%positive := OList [];
           2%positive := ODict {[ "WEBSITE_SERVER" := VStr "http://localhost";
                                  "PROJECT" := VNone;
                                  "AUTHOR" := VStr "nbsite" ]} ]}
        {[ "html_static_path" := VRef 1%positive;
           "html_context" := VRef 2%positive ]}.

(** Whether a value is no reference, or a reference to an object of [h]. *)
Definition ref_bound (h : gmap loc object) (v : value) : bool :=
  match v with
  | VRef l => bool_decide (is_Some (h !! l))
  | _ => true
  end.

(** ** Equal values in two stores *)

(** Values that are no references, equal as Python compares them: a boolean
    equals the integer 0 or 1 it stands for. *)
Definition scalar_eq (v v' : value) : Prop :=
  match v, v' with
  | VNone, VNone => True
  | VBool b, VBool b' => b = b'
  | VInt z, VInt z' => z = z'
  | VBool b, VInt z | VInt z, VBool b => z = Z.b2z b
  | VStr s, VStr s' => s = s'
  | _, _ => False
  end.

(** Two objects of the same kind whose items, or whose entries under every
    key, are related by [P]. *)
Definition obj_rel (P : value → value → Prop) (o o' : object) : Prop :=
  match o, o' with
  | OTuple vs, OTuple vs' => Forall2 P vs vs'
  | OList vs, OList vs' => Forall2 P vs vs'
  | ODict d, ODict d' => ∀ k, option_Forall2 P (d !! k) (d' !! k)
  | _, _ => False
  end.

(** [same_at n h h' v v']: [v] in the store [h] and [v'] in the store [h']
    are equal as far as [n] steps into the objects they refer to can tell:
    equal scalars, or references to objects of the same kind whose parts are
    equal to depth [n - 1]. *)
Fixpoint same_at (n : nat) (h h' : gmap loc object) (v v' : value) : Prop :=
  match n with
  | 0 => True
  | S n =>
      match v, v' with
      | VRef l, VRef l' =>
          match h !! l, h' !! l' with
          | Some o, Some o' => obj_rel (same_at n h h') o o'
          | _, _ => False
          end
      | VRef _, _ | _, VRef _ => False
      | _, _ => scalar_eq v v'
      end
  end.

(** Equal values, whatever the identities of the objects behind them: equal
    to every depth. *)
Definition same_value (h : gmap loc object) (v : value)
    (h' : gmap loc object) (v' : value) : Prop :=
  ∀ n, same_at n h h' v v'.

(** Both states bind [x], to equal values. *)
Definition same_attribute (st st' : state) (x : string) : Prop :=
  ∃ v v', globals st !! x = Some v ∧ globals st' !! x = Some v' ∧
    same_value (objects st) v (objects st') v'.

(** Values related through a relation [R] on identities: equal scalars, or
    references to related objects. *)
Definition value_rel (R : loc → loc → Prop) (v v' : value) : Prop :=
  match v, v' with
  | VRef l, VRef l' => R l l'
  | VRef _, _ | _, VRef _ => False
  | _, _ => scalar_eq v v'
  end.

(** [R] is a correspondence between the objects of two stores: related
    identities have objects of the same kind whose parts are related. *)
Definition correspondence (R : loc → loc → Prop)
    (h h' : gmap loc object) : Prop :=
  ∀ l l', R l l' →
    match h !! l, h' !! l' with
    | Some o, Some o' => obj_rel (value_rel R) o o'
    | _, _ => False
    end.

(** [l] and [l'] correspond to each other and to nothing else: wherever one
    is shared, the other is. *)
Definition only_pair (R : loc → loc → Prop) (l l' : loc) : Prop :=
  R l l' ∧ (∀ m', R l m' → m' = l') ∧ (∀ m, R m l' → m = l).

(** The correspondence of the objects two runs created, added to [R]. *)
Definition with_created (R : loc → loc → Prop) (ids ids' : created)
    (l l' : loc) : Prop :=
  R l l' ∨
  (l = id_theme ids ∧ l' = id_theme ids') ∨
  (l = id_nav ids ∧ l' = id_nav ids') ∨
  (l = id_nav1 ids ∧ l' = id_nav1 ids') ∨
  (l = id_nav2 ids ∧ l' = id_nav2 ids') ∨
  (l = id_nav3 ids ∧ l' = id_nav3 ids') ∨
  (l = id_social ids ∧ l' = id_social ids') ∨
  (l = id_social1 ids ∧ l' = id_social1 ids') ∨
  (l = id_social2 ids ∧ l' = id_social2 ids').

(** Defaults whose context holds the static path list itself, and defaults
    whose context holds an equal list of its own: equal values, shared
    differently. *)
Definition shared_list_defaults : state :=
  State {[ 1%positive := OList [VStr "_shared_static"];
           2%positive := ODict {[ "static_dirs" := VRef 1%positive ]} ]}
        {[ "html_static_path" := VRef 1%positive;
           "html_context" := VRef 2%positive ]}.

Definition copied_list_defaults : state :=
  State {[ 1%positive := OList [VStr "_shared_static"];
           2%positive := ODict {[ "static_dirs" := VRef 3%positive ]};
           3%positive := OList [VStr "_shared_static"] ]}
        {[ "html_static_path" := VRef 1%positive;
           "html_context" := VRef 2%positive ]}.

(** The example defaults in another store: other identities, one more
    object, other names around. *)
Definition example_moved : state :=
  State
    {[ 7%positive := OList example_static_path;
       5%positive := ODict {[ "js_includes" := VRef 9%positive;
                              "css_includes" := VRef 8%positive ]};
       9%positive := OList [VStr "custom.js"; VStr "require.js"];
       8%positive := OList [VStr "main.css"; VStr "custom.css"];
       1%positive := OList [VStr "sphinx.ext.autodoc"] ]}
    {[ "html_static_path" := VRef 7%positive;
       "html_context" := VRef 5%positive;
       "extensions" := VRef 1%positive;
       "project" := VStr "nbsite" ]}.

(** The correspondence between the example defaults and the moved ones. *)
Definition example_moved_rel (l l' : loc) : Prop :=
  (l, l') ∈ [(1, 7); (2, 5); (3, 9); (4, 8)]%positive.

(** * Proofs *)

(** ** Rules of the weakest precondition *)

Section wp_rules.
Context {A B : Type}.
Implicit Types (Q : A → state → Prop) (h : gmap loc object)
  (g : gmap string value).

Lemma wp_elim (m : M A) Q st :
  wp m Q st → ∃ a st', m st = inr (a, st') ∧ Q a st'.
Proof. unfold wp. destruct (m st) as [e|[a st']]; [done | eauto]. Qed.

Lemma wp_ret (a : A) Q st : Q a st → wp (mret a) Q st.
Proof. done. Qed.

Lemma wp_bind (m : M B) (f : B → M A) Q st :
  wp m (λ b, wp (f b) Q) st → wp (m ≫= f) Q st.
Proof.
  unfold wp, mbind, M_bind. destruct (m st) as [e|[b st']]; done.
Qed.
End wp_rules.

Section wp_primitives.
Implicit Types (h : gmap loc object) (g : gmap string value).

Lemma wp_setglobal x v (Q : unit → state → Prop) h g :
  Q () (State h (<[x := v]> g)) → wp (setglobal x v) Q (State h g).
Proof. done. Qed.

Lemma wp_getglobal x v (Q : value → state → Prop) h g :
  g !! x = Some v → Q v (State h g) → wp (getglobal x) Q (State h g).
Proof. intros Hx HQ. unfold wp, getglobal. simpl. by rewrite Hx. Qed.

Lemma wp_alloc o (Q : value → state → Prop) h g :
  (∀ l, h !! l = None → Q (VRef l) (State (<[l := o]> h) g)) →
  wp (alloc o) Q (State h g).
Proof.
  intros HQ. unfold wp, alloc. simpl. apply HQ.
  apply not_elem_of_dom, is_fresh.
Qed.

Lemma wp_deref l o (Q : option object → state → Prop) h g :
  h !! l = Some o → Q (Some o) (State h g) → wp (deref (VRef l)) Q (State h g).
Proof. intros Hl HQ. unfold wp, deref. simpl. by rewrite Hl. Qed.

Lemma wp_store l o (Q : unit → state → Prop) h g :
  Q () (State (<[l := o]> h) g) → wp (store l o) Q (State h g).
Proof. done. Qed.

Lemma wp_str_add s t (Q : value → state → Prop) st :
  Q (VStr (s +:+ t)) st → wp (str_add s (VStr t)) Q st.
Proof. done. Qed.

Lemma wp_iadd_list l xs items (Q : value → state → Prop) h g :
  h !! l = Some (OList xs) →
  (∀ l', h !! l' = None →
     Q (VRef l) (State (<[l := OList (xs ++ items)]> (<[l' := OList items]> h)) g)) →
  wp (iadd_list (VRef l) items) Q (State h g).
Proof.
  intros Hl HQ. unfold iadd_list, list_display.
  apply wp_bind, wp_alloc. intros l' Hl'.
  apply wp_bind, (wp_deref l (OList xs)).
  { rewrite lookup_insert_ne by congruence. done. }
  apply wp_bind, wp_store, wp_ret. by apply HQ.
Qed.

Lemma wp_getattr_update l d (Q : loc → state → Prop) h g :
  h !! l = Some (ODict d) → Q l (State h g) →
  wp (getattr_update (VRef l)) Q (State h g).
Proof.
  intros Hl HQ. unfold getattr_update.
  apply wp_bind, (wp_deref l (ODict d)); [done|]. by apply wp_ret.
Qed.

Lemma wp_dict_update l d kvs (Q : unit → state → Prop) h g :
  h !! l = Some (ODict d) →
  (∀ l', h !! l' = None →
     Q () (State (<[l := ODict (dict_entries kvs ∪ d)]>
                    (<[l' := ODict (dict_entries kvs)]> h)) g)) →
  wp (dict_update l kvs) Q (State h g).
Proof.
  intros Hl HQ. unfold dict_update, dict_display.
  apply wp_bind, wp_alloc. intros l' Hl'.
  apply wp_bind, (wp_deref l (ODict d)).
  { rewrite lookup_insert_ne by congruence. done. }
  apply wp_store. by apply HQ.
Qed.
End wp_primitives.

(** ** Running the module *)

Arguments ld_globals {_ _ _ _ _ _ _} _.
Arguments ld_static_path {_ _ _ _ _ _ _} _.
Arguments ld_context {_ _ _ _ _ _ _} _.
Arguments ld_theme_options {_ _ _ _ _ _ _} _.
Arguments ld_nav {_ _ _ _ _ _ _} _.
Arguments ld_nav1 {_ _ _ _ _ _ _} _.
Arguments ld_nav2 {_ _ _ _ _ _ _} _.
Arguments ld_nav3 {_ _ _ _ _ _ _} _.
Arguments ld_social {_ _ _ _ _ _ _} _.
Arguments ld_social1 {_ _ _ _ _ _ _} _.
Arguments ld_social2 {_ _ _ _ _ _ _} _.
Arguments ld_frame {_ _ _ _ _ _ _} _.

(** Flattens what is known of a fresh identity into one fact per object of
    the store built so far. *)
Ltac fresh_facts H :=
  repeat (apply lookup_insert_None in H as [H ?]).

(** Looks an identity up in a store built by insertions. *)
Ltac store_lookup :=
  repeat first
    [ rewrite lookup_insert_eq
    | rewrite lookup_insert_ne by congruence ];
  try done.

(** One step of the script: an allocation or a binding. *)
Tactic Notation "step_alloc" ident(l) ident(H) :=
  apply wp_bind, wp_alloc; intros l H; fresh_facts H.
Ltac step_set := apply wp_bind, wp_setglobal.

(** Looks a name up in a namespace built by bindings. *)
Ltac name_lookup :=
  repeat first
    [ rewrite lookup_insert_eq
    | rewrite lookup_insert_ne by discriminate ];
  try done.

Ltac step_get := eapply wp_bind, wp_getglobal; [by name_lookup|].

Lemma conf_wp st0 ls xs lc d0 :
  globals st0 !! "html_static_path" = Some (VRef ls) →
  objects st0 !! ls = Some (OList xs) →
  globals st0 !! "html_context" = Some (VRef lc) →
  objects st0 !! lc = Some (ODict d0) →
  wp conf (λ _ st1, ∃ ids, loaded st0 ls xs lc d0 ids st1) st0.
Proof.
  destruct st0 as [h g]. simpl. intros Hsp Hls Hctx Hlc.
  unfold conf, tuple.
  do 2 step_set. step_get. apply wp_bind, wp_str_add. do 4 step_set.
  step_get.
  eapply wp_bind, wp_iadd_list; [done|]. intros ltmp Htmp.
  do 2 step_set.
  unfold dict_display. step_alloc lt Ht. step_set.
  step_alloc n1 Hn1. step_alloc n2 Hn2. step_alloc n3 Hn3.
  step_alloc ln Hln. step_set.
  step_get.
  eapply wp_bind, (wp_getattr_update lc d0); [by store_lookup|].
  do 6 step_get.
  step_alloc s1 Hs1. step_alloc s2 Hs2. step_alloc lso Hlso.
  eapply (wp_dict_update lc d0); [by store_lookup|]. intros lu Hlu.
  fresh_facts Hlu.
  exists (Created lt ln n1 n2 n3 lso s1 s2).
  split; simpl; try (store_lookup; fail).
  intros l Hl1 Hl2 [o Ho]. store_lookup.
Qed.

Lemma conf_loaded st0 ls xs lc d0 :
  shared_defaults st0 ls xs lc d0 →
  ∃ st1 ids, loads st0 st1 ∧ loaded st0 ls xs lc d0 ids st1.
Proof.
  intros (Hsp & Hls & Hctx & Hlc).
  destruct (wp_elim _ _ _ (conf_wp st0 ls xs lc d0 Hsp Hls Hctx Hlc))
    as ([] & st1 & Hrun & ids & Hst1).
  eauto.
Qed.

(** ** Sanity of the definitions *)

Example dotted_numeric_ok :
  dotted_numeric "0.0.1" = true ∧ dotted_numeric "12.34" = true ∧
  dotted_numeric "7" = true.
Proof. done. Qed.

Example dotted_numeric_ko :
  dotted_numeric "" = false ∧ dotted_numeric "1." = false ∧
  dotted_numeric ".1" = false ∧ dotted_numeric "1..2" = false ∧
  dotted_numeric "1.a" = false ∧ dotted_numeric "0.0.1rc" = false.
Proof. done. Qed.

(** Without the defaults the script needs, loading raises: the name is
    unbound, the static path is no list, the context has no [update]. *)
Example conf_without_defaults :
  conf (State ∅ ∅) = inl (NameError "html_static_path").
Proof. reflexivity. Qed.

Example conf_static_path_tuple :
  conf (State {[ 1%positive := OTuple []; 2%positive := ODict ∅ ]}
              {[ "html_static_path" := VRef 1%positive;
                 "html_context" := VRef 2%positive ]})
  = inl TypeError.
Proof. vm_compute. reflexivity. Qed.

Example conf_without_context :
  conf (State {[ 1%positive := OList [] ]}
              {[ "html_static_path" := VRef 1%positive ]})
  = inl (NameError "html_context").
Proof. vm_compute. reflexivity. Qed.

Example conf_context_none :
  conf (State {[ 1%positive := OList [] ]}
              {[ "html_static_path" := VRef 1%positive;
                 "html_context" := VNone ]})
  = inl (AttributeError "update").
Proof. vm_compute. reflexivity. Qed.

Lemma example_defaults_shared :
  shared_defaults example_defaults 1%positive example_static_path
    2%positive example_context.
Proof. repeat split; reflexivity. Qed.

Lemma bare_defaults_shared :
  shared_defaults bare_defaults 1%positive [] 2%positive ∅.
Proof. repeat split; reflexivity. Qed.

(** ** Reading the state a successful run leaves *)

Section loaded_facts.
Context {st0 : state} {ls : loc} {xs : list value} {lc : loc}
  {d0 : gmap string value} {ids : created} {st1 : state}.
Hypothesis Hdefaults : shared_defaults st0 ls xs lc d0.
Hypothesis Hloaded : loaded st0 ls xs lc d0 ids st1.

Lemma loaded_html_context : globals st1 !! "html_context" = Some (VRef lc).
Proof.
  destruct Hdefaults as (_ & _ & Hctx & _).
  rewrite (ld_globals Hloaded). unfold bound_names.
  by name_lookup.
Qed.

Lemma loaded_context_dict :
  dict_of st1 (VRef lc) =
    Some (dict_entries (context_entries (id_nav ids) (id_social ids)) ∪ d0).
Proof. unfold dict_of. by rewrite (ld_context Hloaded). Qed.

Lemma loaded_context_slot k :
  context_slot st1 k =
    (dict_entries (context_entries (id_nav ids) (id_social ids)) ∪ d0) !! k.
Proof.
  unfold context_slot. rewrite loaded_html_context. simpl.
  by rewrite (ld_context Hloaded).
Qed.

Lemma loaded_global x v :
  bound_names ls (id_theme ids) (id_nav ids) (globals st0) !! x = Some v →
  globals st1 !! x = Some v.
Proof. by rewrite (ld_globals Hloaded). Qed.

Lemma loaded_nav_items :
  tuple_items st1 (VRef (id_nav ids)) =
    Some [VRef (id_nav1 ids); VRef (id_nav2 ids); VRef (id_nav3 ids)].
Proof. unfold tuple_items. by rewrite (ld_nav Hloaded). Qed.

Lemma loaded_social_items :
  tuple_items st1 (VRef (id_social ids)) =
    Some [VRef (id_social1 ids); VRef (id_social2 ids)].
Proof. unfold tuple_items. by rewrite (ld_social Hloaded). Qed.

Lemma loaded_nav_table :
  pair_table st1 (VRef (id_nav ids)) =
    Some [("Getting Started", "getting_started/index");
          ("User Guide", "user_guide/index");
          ("About", "about")].
Proof.
  unfold pair_table. rewrite loaded_nav_items. simpl.
  unfold as_pair, tuple_items.
  by rewrite (ld_nav1 Hloaded), (ld_nav2 Hloaded), (ld_nav3 Hloaded).
Qed.
End loaded_facts.

(** Reads a name the script has bound. *)
Ltac read_global H :=
  apply (loaded_global H); unfold bound_names; name_lookup.

Lemma context_entries_keys nav social :
  (context_entries nav social).*1 = context_keys.
Proof. done. Qed.

Lemma context_entries_other nav social k :
  k ∉ context_keys → dict_entries (context_entries nav social) !! k = None.
Proof.
  intros Hk. unfold dict_entries, context_entries. simpl.
  repeat (rewrite lookup_insert_ne;
          [|intros <-; apply Hk; unfold context_keys; solve [repeat constructor]]).
  done.
Qed.

Lemma context_entries_written nav social k :
  k ∈ context_keys → is_Some (dict_entries (context_entries nav social) !! k).
Proof.
  unfold context_keys. intros Hk.
  repeat (apply elem_of_cons in Hk as [->|Hk]; [by eexists|]).
  by apply elem_of_nil in Hk.
Qed.

Lemma union_lookup_written (new d : gmap string value) k v :
  new !! k = Some v → (new ∪ d) !! k = Some v.
Proof. intros Hk. by apply lookup_union_Some_l. Qed.

Lemma context_keys_NoDup : NoDup context_keys.
Proof. apply (bool_decide_unpack _). vm_compute. exact I. Qed.

(** ** Rules for two runs side by side *)

Section respects_rules.
Context {A B : Type}.
Implicit Types X Y Z : list string.

Lemma respects_ret X (a : A) : respects X X (mret a).
Proof. intros st st' Hst. by split. Qed.

Lemma respects_raise X e : respects X X (raise (A := A) e).
Proof. by intros st st' Hst. Qed.

Lemma respects_bind X Y Z (m : M B) (f : B → M A) :
  respects X Y m → (∀ b, respects Y Z (f b)) → respects X Z (m ≫= f).
Proof.
  intros Hm Hf st st' Hst. specialize (Hm st st' Hst).
  unfold mbind, M_bind, same_outcome in *.
  destruct (m st) as [e|[b st1]], (m st') as [e'|[b' st1']]; try done.
  destruct Hm as [<- Hst1]. by apply Hf.
Qed.
End respects_rules.

Section respects_primitives.
Implicit Types X : list string.

Lemma respects_setglobal X x v : respects X (x :: X) (setglobal x v).
Proof.
  intros [h g] [h' g'] [Hh Hg]. simpl in *. split; [done|]. split; [done|].
  simpl. intros y [->|Hy]%elem_of_cons.
  - by rewrite !lookup_insert_eq.
  - destruct (decide (x = y)) as [->|Hne].
    + by rewrite !lookup_insert_eq.
    + rewrite !lookup_insert_ne by done. by apply Hg.
Qed.

Lemma respects_getglobal X x : x ∈ X → respects X X (getglobal x).
Proof.
  intros Hx st st' [Hh Hg]. unfold getglobal, same_outcome.
  rewrite <- (Hg x Hx). destruct (globals st !! x); [|done].
  by repeat split.
Qed.

Lemma respects_alloc X o : respects X X (alloc o).
Proof.
  intros st st' [Hh Hg]. unfold alloc, same_outcome. rewrite <- Hh.
  by repeat split.
Qed.

Lemma respects_deref X v : respects X X (deref v).
Proof.
  intros st st' [Hh Hg]. unfold deref, same_outcome.
  destruct v; try by repeat split.
  rewrite <- Hh. destruct (objects st !! l); [|done]. by repeat split.
Qed.

Lemma respects_store X l o : respects X X (store l o).
Proof.
  intros st st' [Hh Hg]. unfold store, same_outcome. rewrite <- Hh.
  by repeat split.
Qed.

Lemma respects_str_add X s v : respects X X (str_add s v).
Proof.
  destruct v; first [apply respects_ret | apply respects_raise].
Qed.

Lemma respects_iadd_list X target items :
  respects X X (iadd_list target items).
Proof.
  unfold iadd_list, list_display.
  eapply respects_bind; [apply respects_alloc|]. intros _.
  eapply respects_bind; [apply respects_deref|]. intros o.
  destruct target, o as [[]|]; try apply respects_raise.
  eapply respects_bind; [apply respects_store|]. intros _.
  apply respects_ret.
Qed.

Lemma respects_getattr_update X target :
  respects X X (getattr_update target).
Proof.
  unfold getattr_update.
  eapply respects_bind; [apply respects_deref|]. intros o.
  destruct target, o as [[]|];
    first [apply respects_ret | apply respects_raise].
Qed.

Lemma respects_dict_update X l kvs : respects X X (dict_update l kvs).
Proof.
  unfold dict_update, dict_display.
  eapply respects_bind; [apply respects_alloc|]. intros _.
  eapply respects_bind; [apply respects_deref|]. intros o.
  destruct o as [[]|]; first [apply respects_store | apply respects_raise].
Qed.
End respects_primitives.

(** Membership of a name in an explicit list of names. *)
Ltac name_in := solve [repeat constructor].

(** One statement of the script, run side by side. *)
Ltac respects_step :=
  lazymatch goal with
  | |- respects _ _ (setglobal _ _ ≫= _) =>
      eapply respects_bind; [apply respects_setglobal|]; intros _
  | |- respects _ _ (getglobal _ ≫= _) =>
      eapply respects_bind; [apply respects_getglobal; name_in|]; intros ?
  | |- respects _ _ (alloc _ ≫= _) =>
      eapply respects_bind; [apply respects_alloc|]; intros ?
  | |- respects _ _ (str_add _ _ ≫= _) =>
      eapply respects_bind; [apply respects_str_add|]; intros ?
  | |- respects _ _ (iadd_list _ _ ≫= _) =>
      eapply respects_bind; [apply respects_iadd_list|]; intros ?
  | |- respects _ _ (getattr_update _ ≫= _) =>
      eapply respects_bind; [apply respects_getattr_update|]; intros ?
  end.

Lemma conf_respects :
  ∃ Y, respects ["html_static_path"; "html_context"] Y conf ∧
       ∀ x, x ∈ exposed → x ∈ Y.
Proof.
  eexists. split.
  - unfold conf, tuple, dict_display.
    repeat respects_step. apply respects_dict_update.
  - unfold exposed. intros x Hx.
    repeat (apply elem_of_cons in Hx as [->|Hx]; [name_in|]).
    by apply elem_of_nil in Hx.
Qed.

(** From one store and the same bindings of html_static_path and
    html_context, whatever the other names, two runs end alike: both raise
    the same exception, or both return and leave the same objects and the
    same binding of every exposed attribute. *)
Lemma conf_same_store st st' :
  objects st = objects st' →
  globals st !! "html_static_path" = globals st' !! "html_static_path" →
  globals st !! "html_context" = globals st' !! "html_context" →
  same_outcome exposed (conf st) (conf st').
Proof.
  intros Hh Hsp Hctx.
  destruct conf_respects as (Y & HY & Hexposed).
  assert (Hst : agree ["html_static_path"; "html_context"] st st').
  { split; [done|]. intros x Hx.
    repeat (apply elem_of_cons in Hx as [->|Hx]; [done|]).
    by apply elem_of_nil in Hx. }
  specialize (HY st st' Hst). unfold same_outcome in *.
  destruct (conf st) as [e|[[] st1]], (conf st') as [e'|[[] st1']]; try done.
  destruct HY as [_ [Hh1 Hg1]]. repeat split; [done|].
  intros x Hx. by apply Hg1, Hexposed.
Qed.

(** ** Equal values in two stores *)

Lemma value_rel_mono (R R' : loc → loc → Prop) v v' :
  (∀ l l', R l l' → R' l l') → value_rel R v v' → value_rel R' v v'.
Proof. intros HR. destruct v, v'; simpl; auto. Qed.

Lemma obj_rel_mono (P P' : value → value → Prop) o o' :
  (∀ v v', P v v' → P' v v') → obj_rel P o o' → obj_rel P' o o'.
Proof.
  intros HP. destruct o, o'; simpl; try done.
  - intros H. eapply Forall2_impl; eauto.
  - intros H. eapply Forall2_impl; eauto.
  - intros H k. destruct (H k); constructor; auto.
Qed.

Lemma same_at_ref n h h' l l' :
  same_at (S n) h h' (VRef l) (VRef l') =
    match h !! l, h' !! l' with
    | Some o, Some o' => obj_rel (same_at n h h') o o'
    | _, _ => False
    end.
Proof. done. Qed.

(** Values related through a correspondence of the stores are equal. *)
Lemma correspondence_same_value R h h' v v' :
  correspondence R h h' → value_rel R v v' → same_value h v h' v'.
Proof.
  intros Hcorr Hv n. revert v v' Hv.
  induction n as [|n IH]; intros v v' Hv; [done|].
  destruct v, v'; try done.
  rewrite same_at_ref. simpl in Hv. specialize (Hcorr _ _ Hv).
  destruct (h !! l) as [o|], (h' !! l0) as [o'|]; try done.
  eapply obj_rel_mono; [|done]. auto.
Qed.

(** What corresponds to a list is a list, and to a dictionary a
    dictionary. *)
Lemma correspondence_list R h h' l l' xs :
  correspondence R h h' → R l l' → h !! l = Some (OList xs) →
  ∃ xs', h' !! l' = Some (OList xs') ∧ Forall2 (value_rel R) xs xs'.
Proof.
  intros Hcorr Hl Hxs. specialize (Hcorr _ _ Hl). rewrite Hxs in Hcorr.
  destruct (h' !! l') as [[]|]; try done. eauto.
Qed.

Lemma correspondence_dict R h h' l l' d :
  correspondence R h h' → R l l' → h !! l = Some (ODict d) →
  ∃ d', h' !! l' = Some (ODict d') ∧
    ∀ k, option_Forall2 (value_rel R) (d !! k) (d' !! k).
Proof.
  intros Hcorr Hl Hd. specialize (Hcorr _ _ Hl). rewrite Hd in Hcorr.
  destruct (h' !! l') as [[]|]; try done. eauto.
Qed.

(** The objects two runs leave correspond, when those they started from
    did and the two objects they change were shared alike. *)
Lemma loaded_correspondence R st st' ls xs lc d0 ls' xs' lc' d0' ids ids'
    st1 st1' :
  correspondence R (objects st) (objects st') →
  only_pair R ls ls' → only_pair R lc lc' →
  Forall2 (value_rel R) xs xs' →
  (∀ k, option_Forall2 (value_rel R) (d0 !! k) (d0' !! k)) →
  loaded st ls xs lc d0 ids st1 →
  loaded st' ls' xs' lc' d0' ids' st1' →
  correspondence (with_created R ids ids') (objects st1) (objects st1').
Proof.
  intros Hcorr (Hls & Hls1 & Hls2) (Hlc & Hlc1 & Hlc2) Hxs Hd0 Hst1 Hst1'.
  assert (Hmono : ∀ v v', value_rel R v v' →
            value_rel (with_created R ids ids') v v').
  { intros v v'. apply value_rel_mono. by left. }
  intros l l' [HR|Hnew].
  - destruct (decide (l = ls)) as [->|Hnls].
    { rewrite (Hls1 _ HR). rewrite (ld_static_path Hst1), (ld_static_path Hst1').
      simpl. apply Forall2_app; [|by repeat constructor].
      eapply Forall2_impl; eauto. }
    destruct (decide (l = lc)) as [->|Hnlc].
    { rewrite (Hlc1 _ HR). rewrite (ld_context Hst1), (ld_context Hst1').
      simpl. intros k.
      destruct (decide (k ∈ context_keys)) as [Hk|Hk].
      - unfold context_keys in Hk.
        repeat (apply elem_of_cons in Hk as [->|Hk];
          [ erewrite !union_lookup_written by reflexivity;
            constructor; simpl; solve [done | right; tauto] |]).
        by apply elem_of_nil in Hk.
      - rewrite !lookup_union_r by (by apply context_entries_other).
        destruct (Hd0 k); constructor; auto. }
    assert (l' ≠ ls') as Hnls' by (intros ->; by apply Hnls, Hls2).
    assert (l' ≠ lc') as Hnlc' by (intros ->; by apply Hnlc, Hlc2).
    specialize (Hcorr _ _ HR).
    destruct (objects st !! l) as [o|] eqn:Ho; [|done].
    destruct (objects st' !! l') as [o'|] eqn:Ho'; [|done].
    rewrite (ld_frame Hst1), (ld_frame Hst1'), Ho, Ho' by (by rewrite ?Ho, ?Ho').
    eapply obj_rel_mono; eauto.
  - destruct Hnew as [[-> ->]|[[-> ->]|[[-> ->]|[[-> ->]|[[-> ->]|
      [[-> ->]|[[-> ->]|[-> ->]]]]]]]].
    + rewrite (ld_theme_options Hst1), (ld_theme_options Hst1'). simpl.
      intros k. unfold dict_entries. simpl. rewrite !lookup_insert.
      repeat case_decide; rewrite ?lookup_empty; by constructor.
    + rewrite (ld_nav Hst1), (ld_nav Hst1'). simpl.
      repeat constructor; simpl; right; tauto.
    + rewrite (ld_nav1 Hst1), (ld_nav1 Hst1'). by repeat constructor.
    + rewrite (ld_nav2 Hst1), (ld_nav2 Hst1'). by repeat constructor.
    + rewrite (ld_nav3 Hst1), (ld_nav3 Hst1'). by repeat constructor.
    + rewrite (ld_social Hst1), (ld_social Hst1'). simpl.
      repeat constructor; simpl; right; tauto.
    + rewrite (ld_social1 Hst1), (ld_social1 Hst1'). by repeat constructor.
    + rewrite (ld_social2 Hst1), (ld_social2 Hst1'). by repeat constructor.
Qed.

(** Membership in the correspondence of the example. *)
Ltac moved_pairs H :=
  unfold example_moved_rel in H;
  repeat (apply elem_of_cons in H as [[= -> ->]|H]);
  [..|by apply elem_of_nil in H].

Lemma example_moved_correspondence :
  correspondence example_moved_rel (objects example_defaults)
    (objects example_moved).
Proof.
  assert (Hin : ∀ p, p ∈ [(1, 7); (2, 5); (3, 9); (4, 8)]%positive →
            example_moved_rel p.1 p.2) by (by intros []).
  intros l l' H. moved_pairs H.
  - vm_compute. by repeat constructor.
  - change (∀ k, option_Forall2 (value_rel example_moved_rel)
              (example_context !! k)
              (({[ "js_includes" := VRef 9%positive;
                   "css_includes" := VRef 8%positive ]}
                : gmap string value) !! k)).
    intros k. unfold example_context.
    rewrite !lookup_insert, !lookup_singleton.
    repeat case_decide; constructor.
    + apply (Hin (3, 9)%positive). solve [repeat constructor].
    + apply (Hin (4, 8)%positive). solve [repeat constructor].
  - vm_compute. by repeat constructor.
  - vm_compute. by repeat constructor.
Qed.

Lemma example_moved_only_pair l l' :
  (l, l') ∈ [(1, 7); (2, 5); (3, 9); (4, 8)]%positive →
  only_pair example_moved_rel l l'.
Proof.
  intros Hin. split; [done|].
  repeat (apply elem_of_cons in Hin as [[= -> ->]|Hin]);
    [..|by apply elem_of_nil in Hin].
  all: split; intros m H; unfold example_moved_rel in H;
    repeat (apply elem_of_cons in H as [H|H]; [by simplify_eq|]);
    by apply elem_of_nil in H.
Qed.

(** ** Properties of the loaded module *)

(** C1, as amended. After loading, the navigation table bound to the context
    slots NAV and LINKS is an ordered sequence of (label, path) pairs with
    exactly three entries: Getting Started, User Guide and About. *)
Theorem nav_table_three_entries st0 ls xs lc d0 :
  shared_defaults st0 ls xs lc d0 →
  ∃ st1 nav table,
    loads st0 st1 ∧
    context_slot st1 "NAV" = Some nav ∧
    context_slot st1 "LINKS" = Some nav ∧
    pair_table st1 nav = Some table ∧
    table = [("Getting Started", "getting_started/index");
             ("User Guide", "user_guide/index");
             ("About", "about")] ∧
    length table = 3.
Proof.
  intros Hd.
  destruct (conf_loaded st0 ls xs lc d0 Hd) as (st1 & ids & Hrun & Hst1).
  exists st1, (VRef (id_nav ids)); eexists.
  split; [done|].
  rewrite !(loaded_context_slot Hd Hst1).
  split; [by apply union_lookup_written|].
  split; [by apply union_lookup_written|].
  split; [apply (loaded_nav_table Hst1)|done].
Qed.

Lemma nav_table_three_entries_example :
  ∃ st1 nav table,
    loads example_defaults st1 ∧
    context_slot st1 "NAV" = Some nav ∧
    context_slot st1 "LINKS" = Some nav ∧
    pair_table st1 nav = Some table ∧
    table = [("Getting Started", "getting_started/index");
             ("User Guide", "user_guide/index");
             ("About", "about")] ∧
    length table = 3.
Proof.
  apply (nav_table_three_entries example_defaults 1%positive
           example_static_path 2%positive example_context).
  repeat split; reflexivity.
Defined.

(** C1, as stated, fails: from the example defaults the table bound to NAV
    does not have two entries. *)
Lemma nav_table_not_two_entries :
  ¬ ∃ st1 nav table,
      loads example_defaults st1 ∧
      context_slot st1 "NAV" = Some nav ∧
      pair_table st1 nav = Some table ∧
      length table = 2.
Proof.
  intros (st1 & nav & table & Hrun & Hnav & Htable & Hlen).
  destruct (conf_loaded _ _ _ _ _ example_defaults_shared)
    as (st1' & ids & Hrun' & Hst1).
  unfold loads in Hrun, Hrun'. rewrite Hrun' in Hrun. injection Hrun as ->.
  rewrite (loaded_context_slot example_defaults_shared Hst1) in Hnav.
  rewrite (union_lookup_written _ _ "NAV" (VRef (id_nav ids))) in Hnav by done.
  injection Hnav as <-.
  rewrite (loaded_nav_table Hst1) in Htable. injection Htable as <-.
  discriminate Hlen.
Qed.

(** C2, as amended. After loading, html_context has all eight keys the
    update writes (PROJECT, DESCRIPTION, AUTHOR, WEBSITE_SERVER, VERSION,
    NAV, LINKS, SOCIAL), and PROJECT, DESCRIPTION, AUTHOR, VERSION, NAV and
    LINKS hold the values of project, description, authors, version, _NAV
    and _NAV. *)
Theorem context_has_eight_keys st0 ls xs lc d0 :
  shared_defaults st0 ls xs lc d0 →
  ∃ st1,
    loads st0 st1 ∧
    length context_keys = 8 ∧
    NoDup context_keys ∧
    (∀ k, k ∈ context_keys → is_Some (context_slot st1 k)) ∧
    context_slot st1 "PROJECT" = globals st1 !! "project" ∧
    context_slot st1 "DESCRIPTION" = globals st1 !! "description" ∧
    context_slot st1 "AUTHOR" = globals st1 !! "authors" ∧
    context_slot st1 "VERSION" = globals st1 !! "version" ∧
    context_slot st1 "NAV" = globals st1 !! "_NAV" ∧
    context_slot st1 "LINKS" = globals st1 !! "_NAV".
Proof.
  intros Hd.
  destruct (conf_loaded st0 ls xs lc d0 Hd) as (st1 & ids & Hrun & Hst1).
  exists st1.
  split; [done|]. split; [done|]. split; [apply context_keys_NoDup|].
  split.
  { intros k Hk. rewrite (loaded_context_slot Hd Hst1).
    destruct (context_entries_written (id_nav ids) (id_social ids) k Hk)
      as [v Hv].
    exists v. by apply union_lookup_written. }
  rewrite !(loaded_context_slot Hd Hst1).
  repeat split;
    (etrans; [by apply union_lookup_written | symmetry; by read_global Hst1]).
Qed.

Lemma context_has_eight_keys_example :
  ∃ st1,
    loads example_defaults st1 ∧
    length context_keys = 8 ∧
    NoDup context_keys ∧
    (∀ k, k ∈ context_keys → is_Some (context_slot st1 k)) ∧
    context_slot st1 "PROJECT" = globals st1 !! "project" ∧
    context_slot st1 "DESCRIPTION" = globals st1 !! "description" ∧
    context_slot st1 "AUTHOR" = globals st1 !! "authors" ∧
    context_slot st1 "VERSION" = globals st1 !! "version" ∧
    context_slot st1 "NAV" = globals st1 !! "_NAV" ∧
    context_slot st1 "LINKS" = globals st1 !! "_NAV".
Proof.
  apply (context_has_eight_keys example_defaults 1%positive
           example_static_path 2%positive example_context).
  repeat split; reflexivity.
Defined.

(** C2, as stated, fails on the count: loaded over an empty html_context,
    the keys of the mapping are not seven keys. *)
Lemma context_keys_not_seven :
  ¬ ∃ (keys : list string) st1 d,
      NoDup keys ∧ length keys = 7 ∧
      loads bare_defaults st1 ∧
      dict_of st1 (VRef 2%positive) = Some d ∧
      ∀ k, is_Some (d !! k) ↔ k ∈ keys.
Proof.
  intros (keys & st1 & d & Hnd & Hlen & Hrun & Hd & Hkeys).
  destruct (conf_loaded _ _ _ _ _ bare_defaults_shared)
    as (st1' & ids & Hrun' & Hst1).
  unfold loads in Hrun, Hrun'. rewrite Hrun' in Hrun. injection Hrun as ->.
  rewrite (loaded_context_dict Hst1) in Hd. injection Hd as <-.
  assert (Hperm : keys ≡ₚ context_keys).
  { apply NoDup_Permutation; [done | apply context_keys_NoDup |].
    intros k. rewrite <- Hkeys, (right_id_L ∅ (∪)). split.
    - intros Hk. destruct (decide (k ∈ context_keys)) as [|Hn]; [done|].
      apply (context_entries_other (id_nav ids) (id_social ids)) in Hn.
      rewrite Hn in Hk. by destruct Hk.
    - apply context_entries_written. }
  apply Permutation_length in Hperm. rewrite Hlen in Hperm.
  discriminate Hperm.
Qed.

(** C3. After loading, html_context['NAV'] and html_context['LINKS'] refer
    to the identical tuple, the one the name _NAV is bound to. *)
Theorem nav_links_same_tuple st0 ls xs lc d0 :
  shared_defaults st0 ls xs lc d0 →
  ∃ st1 nav items,
    loads st0 st1 ∧
    globals st1 !! "_NAV" = Some (VRef nav) ∧
    context_slot st1 "NAV" = Some (VRef nav) ∧
    context_slot st1 "LINKS" = Some (VRef nav) ∧
    objects st1 !! nav = Some (OTuple items).
Proof.
  intros Hd.
  destruct (conf_loaded st0 ls xs lc d0 Hd) as (st1 & ids & Hrun & Hst1).
  exists st1, (id_nav ids); eexists.
  split; [done|].
  rewrite !(loaded_context_slot Hd Hst1).
  split; [by read_global Hst1|].
  split; [by apply union_lookup_written|].
  split; [by apply union_lookup_written|].
  apply (ld_nav Hst1).
Qed.

Lemma nav_links_same_tuple_example :
  ∃ st1 nav items,
    loads example_defaults st1 ∧
    globals st1 !! "_NAV" = Some (VRef nav) ∧
    context_slot st1 "NAV" = Some (VRef nav) ∧
    context_slot st1 "LINKS" = Some (VRef nav) ∧
    objects st1 !! nav = Some (OTuple items).
Proof.
  apply (nav_links_same_tuple example_defaults 1%positive
           example_static_path 2%positive example_context).
  repeat split; reflexivity.
Defined.

(** C4. After loading, every element of the navigation tuple _NAV and every
    element of the SOCIAL tuple is a two-element tuple whose two members are
    non-empty strings. *)
Theorem nav_social_nonempty_pairs st0 ls xs lc d0 :
  shared_defaults st0 ls xs lc d0 →
  ∃ st1 nav social nav_items social_items,
    loads st0 st1 ∧
    globals st1 !! "_NAV" = Some nav ∧
    context_slot st1 "SOCIAL" = Some social ∧
    tuple_items st1 nav = Some nav_items ∧
    tuple_items st1 social = Some social_items ∧
    length nav_items = 3 ∧
    length social_items = 2 ∧
    Forall (nonempty_pair st1) nav_items ∧
    Forall (nonempty_pair st1) social_items.
Proof.
  intros Hd.
  destruct (conf_loaded st0 ls xs lc d0 Hd) as (st1 & ids & Hrun & Hst1).
  exists st1, (VRef (id_nav ids)), (VRef (id_social ids)).
  do 2 eexists.
  split; [done|].
  split; [by read_global Hst1|].
  split.
  { rewrite (loaded_context_slot Hd Hst1). by apply union_lookup_written. }
  split; [apply (loaded_nav_items Hst1)|].
  split; [apply (loaded_social_items Hst1)|].
  do 2 (split; [done|]).
  split; repeat apply Forall_cons_2; try apply Forall_nil_2;
    unfold nonempty_pair, tuple_items.
  - rewrite (ld_nav1 Hst1). by do 2 eexists.
  - rewrite (ld_nav2 Hst1). by do 2 eexists.
  - rewrite (ld_nav3 Hst1). by do 2 eexists.
  - rewrite (ld_social1 Hst1). by do 2 eexists.
  - rewrite (ld_social2 Hst1). by do 2 eexists.
Qed.

Lemma nav_social_nonempty_pairs_example :
  ∃ st1 nav social nav_items social_items,
    loads example_defaults st1 ∧
    globals st1 !! "_NAV" = Some nav ∧
    context_slot st1 "SOCIAL" = Some social ∧
    tuple_items st1 nav = Some nav_items ∧
    tuple_items st1 social = Some social_items ∧
    length nav_items = 3 ∧
    length social_items = 2 ∧
    Forall (nonempty_pair st1) nav_items ∧
    Forall (nonempty_pair st1) social_items.
Proof.
  apply (nav_social_nonempty_pairs example_defaults 1%positive
           example_static_path 2%positive example_context).
  repeat split; reflexivity.
Defined.

(** C5. After loading, version and release are non-empty strings made of
    digits separated by dots. *)
Theorem version_release_dotted_numeric st0 ls xs lc d0 :
  shared_defaults st0 ls xs lc d0 →
  ∃ st1 v r,
    loads st0 st1 ∧
    globals st1 !! "version" = Some (VStr v) ∧
    globals st1 !! "release" = Some (VStr r) ∧
    v ≠ "" ∧ r ≠ "" ∧
    dotted_numeric v = true ∧ dotted_numeric r = true.
Proof.
  intros Hd.
  destruct (conf_loaded st0 ls xs lc d0 Hd) as (st1 & ids & Hrun & Hst1).
  exists st1, "0.0.1", "0.0.1".
  split; [done|].
  split; [by read_global Hst1|].
  split; [by read_global Hst1|].
  done.
Qed.

Lemma version_release_dotted_numeric_example :
  ∃ st1 v r,
    loads example_defaults st1 ∧
    globals st1 !! "version" = Some (VStr v) ∧
    globals st1 !! "release" = Some (VStr r) ∧
    v ≠ "" ∧ r ≠ "" ∧
    dotted_numeric v = true ∧ dotted_numeric r = true.
Proof.
  apply (version_release_dotted_numeric example_defaults 1%positive
           example_static_path 2%positive example_context).
  repeat split; reflexivity.
Defined.

(** C6. After loading, project is "HoloPlot" and version is "0.0.1", and
    html_context['PROJECT'] equals "HoloPlot" and html_context['VERSION']
    equals "0.0.1". *)
Theorem context_project_version st0 ls xs lc d0 :
  shared_defaults st0 ls xs lc d0 →
  ∃ st1,
    loads st0 st1 ∧
    globals st1 !! "project" = Some (VStr "HoloPlot") ∧
    globals st1 !! "version" = Some (VStr "0.0.1") ∧
    context_slot st1 "PROJECT" = Some (VStr "HoloPlot") ∧
    context_slot st1 "VERSION" = Some (VStr "0.0.1").
Proof.
  intros Hd.
  destruct (conf_loaded st0 ls xs lc d0 Hd) as (st1 & ids & Hrun & Hst1).
  exists st1.
  split; [done|].
  rewrite !(loaded_context_slot Hd Hst1).
  split; [by read_global Hst1|].
  split; [by read_global Hst1|].
  split; by apply union_lookup_written.
Qed.

Lemma context_project_version_example :
  ∃ st1,
    loads example_defaults st1 ∧
    globals st1 !! "project" = Some (VStr "HoloPlot") ∧
    globals st1 !! "version" = Some (VStr "0.0.1") ∧
    context_slot st1 "PROJECT" = Some (VStr "HoloPlot") ∧
    context_slot st1 "VERSION" = Some (VStr "0.0.1").
Proof.
  apply (context_project_version example_defaults 1%positive
           example_static_path 2%positive example_context).
  repeat split; reflexivity.
Defined.

(** C7. For every dictionary the shared defaults bind html_context to, after
    loading html_context is the same dictionary object; it has the eight
    keys the update writes, and under every other key it holds what it held
    before, present or absent. An object such a prior value refers to is
    unchanged as well, unless it is the html_static_path list, which the
    script extends, or html_context itself. *)
Theorem context_update_frame st0 ls xs lc d0 :
  shared_defaults st0 ls xs lc d0 →
  ∃ st1 d1,
    loads st0 st1 ∧
    globals st1 !! "html_context" = Some (VRef lc) ∧
    dict_of st1 (VRef lc) = Some d1 ∧
    (∀ k, k ∈ context_keys → is_Some (d1 !! k)) ∧
    (∀ k, k ∉ context_keys → d1 !! k = d0 !! k) ∧
    (∀ k l, k ∉ context_keys → d0 !! k = Some (VRef l) →
       l ≠ ls → l ≠ lc → is_Some (objects st0 !! l) →
       objects st1 !! l = objects st0 !! l).
Proof.
  intros Hd.
  destruct (conf_loaded st0 ls xs lc d0 Hd) as (st1 & ids & Hrun & Hst1).
  exists st1; eexists.
  split; [done|].
  split; [apply (loaded_html_context Hd Hst1)|].
  split; [apply (loaded_context_dict Hst1)|].
  split; [|split].
  - intros k Hk.
    destruct (context_entries_written (id_nav ids) (id_social ids) k Hk)
      as [v Hv].
    exists v. by apply union_lookup_written.
  - intros k Hk. rewrite lookup_union_r; [done|].
    by apply context_entries_other.
  - intros k l _ _ Hl1 Hl2 Hl. by apply (ld_frame Hst1).
Qed.

Lemma context_update_frame_example :
  ∃ st1 d1,
    loads example_defaults st1 ∧
    globals st1 !! "html_context" = Some (VRef 2%positive) ∧
    dict_of st1 (VRef 2%positive) = Some d1 ∧
    (∀ k, k ∈ context_keys → is_Some (d1 !! k)) ∧
    (∀ k, k ∉ context_keys → d1 !! k = example_context !! k) ∧
    (∀ k l, k ∉ context_keys → example_context !! k = Some (VRef l) →
       l ≠ 1%positive → l ≠ 2%positive →
       is_Some (objects example_defaults !! l) →
       objects st1 !! l = objects example_defaults !! l).
Proof.
  apply (context_update_frame example_defaults 1%positive
           example_static_path 2%positive example_context).
  repeat split; reflexivity.
Defined.

(** C8. For every list the shared defaults bind html_static_path to, after
    loading html_static_path is the same list object, holding the prior
    elements in their order followed by the single element '_static'. *)
Theorem static_path_appended st0 ls xs lc d0 :
  shared_defaults st0 ls xs lc d0 →
  ∃ st1,
    loads st0 st1 ∧
    globals st1 !! "html_static_path" = Some (VRef ls) ∧
    list_items st1 (VRef ls) = Some (xs ++ [VStr "_static"]).
Proof.
  intros Hd.
  destruct (conf_loaded st0 ls xs lc d0 Hd) as (st1 & ids & Hrun & Hst1).
  exists st1.
  split; [done|].
  split; [by read_global Hst1|].
  unfold list_items. by rewrite (ld_static_path Hst1).
Qed.

Lemma static_path_appended_example :
  ∃ st1,
    loads example_defaults st1 ∧
    globals st1 !! "html_static_path" = Some (VRef 1%positive) ∧
    list_items st1 (VRef 1%positive) =
      Some (example_static_path ++ [VStr "_static"]).
Proof.
  apply (static_path_appended example_defaults 1%positive
           example_static_path 2%positive example_context).
  repeat split; reflexivity.
Defined.

(** C9, as amended. Loading is deterministic: two loads that start from
    equal shared-defaults values (equal initial html_static_path and
    html_context, object for object, where the html_static_path list and the
    html_context dictionary of one state are shared exactly where those of
    the other are) both return and produce equal final values for every
    exposed attribute, whatever the identities of the objects and whatever
    else the defaults bind. *)
Theorem load_equal_values st st' ls xs lc d0 R ls' lc' :
  shared_defaults st ls xs lc d0 →
  globals st' !! "html_static_path" = Some (VRef ls') →
  globals st' !! "html_context" = Some (VRef lc') →
  correspondence R (objects st) (objects st') →
  only_pair R ls ls' →
  only_pair R lc lc' →
  ∃ st1 st1',
    loads st st1 ∧ loads st' st1' ∧
    ∀ x, x ∈ exposed → same_attribute st1 st1' x.
Proof.
  intros Hd Hsp' Hctx' Hcorr Hls Hlc.
  pose proof Hd as (Hsp & Hxs & Hctx & Hd0).
  destruct (correspondence_list _ _ _ _ _ _ Hcorr (proj1 Hls) Hxs)
    as (xs' & Hxs' & Hitems).
  destruct (correspondence_dict _ _ _ _ _ _ Hcorr (proj1 Hlc) Hd0)
    as (d0' & Hd0' & Hentries).
  assert (Hd' : shared_defaults st' ls' xs' lc' d0') by done.
  destruct (conf_loaded _ _ _ _ _ Hd) as (st1 & ids & Hrun & Hst1).
  destruct (conf_loaded _ _ _ _ _ Hd') as (st1' & ids' & Hrun' & Hst1').
  exists st1, st1'. split; [done|]. split; [done|].
  pose proof (loaded_correspondence _ _ _ _ _ _ _ _ _ _ _ _ _ _ _
                Hcorr Hls Hlc Hitems Hentries Hst1 Hst1') as Hcorr1.
  intros x Hx. unfold exposed in Hx.
  repeat (apply elem_of_cons in Hx as [->|Hx];
    [ eexists _, _; split; [by read_global Hst1|];
      split; [by read_global Hst1'|];
      apply (correspondence_same_value _ _ _ _ _ Hcorr1); simpl;
      solve [done | left; apply Hls | right; tauto] |]).
  apply elem_of_cons in Hx as [->|Hx]; [|by apply elem_of_nil in Hx].
  eexists _, _. split; [apply (loaded_html_context Hd Hst1)|].
  split; [apply (loaded_html_context Hd' Hst1')|].
  apply (correspondence_same_value _ _ _ _ _ Hcorr1). left. apply Hlc.
Qed.

Lemma load_equal_values_example :
  ∃ st1 st1',
    loads example_defaults st1 ∧ loads example_moved st1' ∧
    ∀ x, x ∈ exposed → same_attribute st1 st1' x.
Proof.
  apply (load_equal_values example_defaults example_moved 1%positive
           example_static_path 2%positive example_context
           example_moved_rel 7%positive 5%positive).
  - repeat split; reflexivity.
  - reflexivity.
  - reflexivity.
  - apply example_moved_correspondence.
  - apply example_moved_only_pair. solve [repeat constructor].
  - apply example_moved_only_pair. solve [repeat constructor].
Defined.

(** C9, as stated, fails. The two defaults below have equal html_static_path
    and equal html_context, but in one the context holds the static path
    list itself and in the other an equal list of its own: after loading,
    the first context sees '_static' appended there and the second does not,
    so html_context differs. *)
Lemma equal_defaults_unequal_context :
  same_attribute shared_list_defaults copied_list_defaults "html_static_path" ∧
  same_attribute shared_list_defaults copied_list_defaults "html_context" ∧
  ¬ ∃ st1 st1',
      loads shared_list_defaults st1 ∧ loads copied_list_defaults st1' ∧
      ∀ x, x ∈ exposed → same_attribute st1 st1' x.
Proof.
  set (R := λ l l' : loc, (l, l') ∈ [(1, 1); (2, 2); (1, 3)]%positive).
  assert (Hcorr : correspondence R (objects shared_list_defaults)
                    (objects copied_list_defaults)).
  { intros l l' H. unfold R in H.
    repeat (apply elem_of_cons in H as [[= -> ->]|H]);
      [..|by apply elem_of_nil in H].
    - vm_compute. by repeat constructor.
    - change (∀ k, option_Forall2 (value_rel R)
                (({[ "static_dirs" := VRef 1%positive ]}
                  : gmap string value) !! k)
                (({[ "static_dirs" := VRef 3%positive ]}
                  : gmap string value) !! k)).
      intros k. rewrite !lookup_singleton. case_decide; constructor.
      unfold R. simpl. solve [repeat constructor].
    - vm_compute. by repeat constructor. }
  split; [|split].
  - exists (VRef 1%positive), (VRef 1%positive).
    split; [reflexivity|]. split; [reflexivity|].
    apply (correspondence_same_value R); [done|].
    unfold R. simpl. solve [repeat constructor].
  - exists (VRef 2%positive), (VRef 2%positive).
    split; [reflexivity|]. split; [reflexivity|].
    apply (correspondence_same_value R); [done|].
    unfold R. simpl. solve [repeat constructor].
  - intros (st1 & st1' & Hrun & Hrun' & Hall).
    assert (Hd : shared_defaults shared_list_defaults 1%positive
                   [VStr "_shared_static"] 2%positive
                   {[ "static_dirs" := VRef 1%positive ]})
      by (repeat split; reflexivity).
    assert (Hd' : shared_defaults copied_list_defaults 1%positive
                    [VStr "_shared_static"] 2%positive
                    {[ "static_dirs" := VRef 3%positive ]})
      by (repeat split; reflexivity).
    destruct (conf_loaded _ _ _ _ _ Hd) as (st2 & ids & Hrun2 & Hst1).
    destruct (conf_loaded _ _ _ _ _ Hd') as (st2' & ids' & Hrun2' & Hst1').
    unfold loads in *.
    rewrite Hrun2 in Hrun. injection Hrun as ->.
    rewrite Hrun2' in Hrun'. injection Hrun' as ->.
    destruct (Hall "html_context") as (v & v' & Hv & Hv' & Hsame).
    { unfold exposed. solve [repeat constructor]. }
    rewrite (loaded_html_context Hd Hst1) in Hv. injection Hv as <-.
    rewrite (loaded_html_context Hd' Hst1') in Hv'. injection Hv' as <-.
    specialize (Hsame 3). rewrite same_at_ref in Hsame.
    rewrite (ld_context Hst1), (ld_context Hst1') in Hsame.
    specialize (Hsame "static_dirs").
    assert (Hk : "static_dirs" ∉ context_keys)
      by (apply (bool_decide_unpack _); vm_compute; exact I).
    rewrite (lookup_union_r _ _ _ (context_entries_other (id_nav ids) _ _ Hk)),
      (lookup_union_r _ _ _ (context_entries_other (id_nav ids') _ _ Hk))
      in Hsame.
    rewrite !lookup_singleton_eq in Hsame.
    inversion Hsame as [? ? Hlists|]; subst.
    rewrite same_at_ref in Hlists.
    rewrite (ld_static_path Hst1) in Hlists.
    assert (Hcopy : objects st1' !! (3%positive : loc)
                    = Some (OList [VStr "_shared_static"])).
    { rewrite (ld_frame Hst1');
        [reflexivity | discriminate | discriminate | eexists; reflexivity]. }
    rewrite Hcopy in Hlists.
    apply Forall2_length in Hlists. discriminate Hlists.
Qed.

(** C10. After loading, copyright is "2017 " followed by authors, that is
    "2017 Philipp Rudiger", and version equals release. *)
Theorem copyright_and_release st0 ls xs lc d0 :
  shared_defaults st0 ls xs lc d0 →
  ∃ st1 a v,
    loads st0 st1 ∧
    globals st1 !! "authors" = Some (VStr a) ∧
    globals st1 !! "copyright" = Some (VStr ("2017 " +:+ a)) ∧
    "2017 " +:+ a = "2017 Philipp Rudiger" ∧
    globals st1 !! "version" = Some v ∧
    globals st1 !! "release" = Some v.
Proof.
  intros Hd.
  destruct (conf_loaded st0 ls xs lc d0 Hd) as (st1 & ids & Hrun & Hst1).
  exists st1, "Philipp Rudiger", (VStr "0.0.1").
  split; [done|].
  split; [by read_global Hst1|].
  split; [by read_global Hst1|].
  split; [done|].
  split; by read_global Hst1.
Qed.

Lemma copyright_and_release_example :
  ∃ st1 a v,
    loads example_defaults st1 ∧
    globals st1 !! "authors" = Some (VStr a) ∧
    globals st1 !! "copyright" = Some (VStr ("2017 " +:+ a)) ∧
    "2017 " +:+ a = "2017 Philipp Rudiger" ∧
    globals st1 !! "version" = Some v ∧
    globals st1 !! "release" = Some v.
Proof.
  apply (copyright_and_release example_defaults 1%positive
           example_static_path 2%positive example_context).
  repeat split; reflexivity.
Defined.

(** ** How the module fails *)

Section outcome_rules.
Context {A B : Type}.
Implicit Types (Q : A → state → Prop) (E : exn → Prop).

Lemma outcome_raises (m : M A) e st :
  outcome m (λ _ _, False) (λ e', e' = e) st → m st = inl e.
Proof. unfold outcome. destruct (m st) as [e'|[a st']]; [by intros ->|done]. Qed.

Lemma outcome_ret (a : A) Q E st : Q a st → outcome (mret a) Q E st.
Proof. done. Qed.

Lemma outcome_bind (m : M B) (f : B → M A) Q E st :
  outcome m (λ b, outcome (f b) Q E) E st → outcome (m ≫= f) Q E st.
Proof.
  unfold outcome, mbind, M_bind. destruct (m st) as [e|[b st']]; done.
Qed.
End outcome_rules.

Section outcome_primitives.
Context {A : Type}.
Implicit Types (E : exn → Prop) (h : gmap loc object) (g : gmap string value).

Lemma outcome_setglobal x v (Q : unit → state → Prop) E h g :
  Q () (State h (<[x := v]> g)) → outcome (setglobal x v) Q E (State h g).
Proof. done. Qed.

Lemma outcome_getglobal x v (Q : value → state → Prop) E h g :
  g !! x = Some v → Q v (State h g) → outcome (getglobal x) Q E (State h g).
Proof. intros Hx HQ. unfold outcome, getglobal. simpl. by rewrite Hx. Qed.

Lemma outcome_getglobal_unbound x (Q : value → state → Prop) E h g :
  g !! x = None → E (NameError x) → outcome (getglobal x) Q E (State h g).
Proof. intros Hx HE. unfold outcome, getglobal. simpl. by rewrite Hx. Qed.

Lemma outcome_alloc o (Q : value → state → Prop) E h g :
  (∀ l, h !! l = None → Q (VRef l) (State (<[l := o]> h) g)) →
  outcome (alloc o) Q E (State h g).
Proof.
  intros HQ. unfold outcome, alloc. simpl. apply HQ.
  apply not_elem_of_dom, is_fresh.
Qed.

Lemma outcome_str_add s t (Q : value → state → Prop) E st :
  Q (VStr (s +:+ t)) st → outcome (str_add s (VStr t)) Q E st.
Proof. done. Qed.

(** On a list the in-place addition returns the list, extended. *)
Lemma outcome_iadd_list l xs items (Q : value → state → Prop) E h g :
  h !! l = Some (OList xs) →
  (∀ l', h !! l' = None →
     Q (VRef l)
       (State (<[l := OList (xs ++ items)]> (<[l' := OList items]> h)) g)) →
  outcome (iadd_list (VRef l) items) Q E (State h g).
Proof.
  intros Hl HQ. unfold iadd_list, list_display.
  apply outcome_bind, outcome_alloc. intros l' Hl'.
  apply outcome_bind. unfold outcome at 1, deref. cbn [objects].
  rewrite lookup_insert_ne by congruence. rewrite Hl.
  apply outcome_bind. by apply HQ.
Qed.

(** On anything else it raises [TypeError]. *)
Lemma outcome_iadd_list_error v items (Q : value → state → Prop) E st :
  has_object st v → list_items st v = None → E TypeError →
  outcome (iadd_list v items) Q E st.
Proof.
  intros Hv Hnl HE. destruct st as [h g].
  unfold iadd_list, list_display.
  apply outcome_bind, outcome_alloc. intros l' Hl'.
  apply outcome_bind. unfold outcome at 1, deref. cbn [objects].
  destruct v as [| | | |l]; try done.
  destruct (Hv l eq_refl) as [o Ho]. simpl in Ho.
  rewrite lookup_insert_ne by congruence.
  unfold list_items in Hnl. simpl in Hnl. rewrite Ho in *. by destruct o.
Qed.

(** The lookup of [update] on anything but a dictionary raises
    [AttributeError]. *)
Lemma outcome_getattr_update_error v (Q : loc → state → Prop) E st :
  has_object st v → dict_of st v = None → E (AttributeError "update") →
  outcome (getattr_update v) Q E st.
Proof.
  intros Hv Hnd HE. unfold getattr_update.
  apply outcome_bind. unfold outcome at 1, deref.
  destruct v as [| | | |l]; try done.
  destruct (Hv l eq_refl) as [o Ho].
  unfold dict_of in Hnd. rewrite Ho in *. by destruct o.
Qed.
End outcome_primitives.

Lemma bound_objects_checked st :
  map_Forall (λ _ v, ref_bound (objects st) v = true) (globals st) →
  bound_objects st.
Proof.
  intros Hall x l Hx. specialize (Hall x _ Hx). simpl in Hall.
  by apply bool_decide_eq_true in Hall.
Qed.

Lemma list_items_Some st v xs :
  list_items st v = Some xs →
  ∃ l, v = VRef l ∧ objects st !! l = Some (OList xs).
Proof.
  unfold list_items. destruct v as [| | | |l]; try done.
  destruct (objects st !! l) as [[]|] eqn:Hl; try done. intros [= ->]. eauto.
Qed.

Lemma dict_of_Some st v d :
  dict_of st v = Some d → ∃ l, v = VRef l ∧ objects st !! l = Some (ODict d).
Proof.
  unfold dict_of. destruct v as [| | | |l]; try done.
  destruct (objects st !! l) as [[]|] eqn:Hl; try done. intros [= ->]. eauto.
Qed.

(** An object of the initial store is an object of the store extended by
    insertions. *)
Ltac kept_object :=
  repeat (apply lookup_insert_is_Some'; right); done.

(** Steps of the script on the way to a failure. *)
Ltac fail_set := apply outcome_bind, outcome_setglobal.
Ltac fail_get := eapply outcome_bind, outcome_getglobal; [by name_lookup|].
Ltac fail_alloc :=
  apply outcome_bind, outcome_alloc;
  let l := fresh "l" in let H := fresh "Hl" in
  intros l H; fresh_facts H.

(** Runs the script up to the read of [html_static_path]. *)
Ltac run_to_static_path :=
  unfold conf;
  do 2 fail_set; fail_get; apply outcome_bind, outcome_str_add; do 4 fail_set.

(** Runs the script from the in-place addition, on the list at [Hls], up to
    the read of [html_context]. *)
Ltac run_to_context Hls :=
  eapply outcome_bind, outcome_iadd_list; [exact Hls|];
  (let l := fresh "l" in let H := fresh "Hl" in intros l H; fresh_facts H);
  do 2 fail_set; unfold dict_display, tuple;
  fail_alloc; fail_set;
  do 4 fail_alloc; fail_set.

(** The lookup of [update] fails in the store the script has built when the
    value had an object that is no dictionary in the store [h] it started
    from. *)
Ltac update_fails Hw Hnd :=
  apply outcome_bind, outcome_getattr_update_error; [| |done];
  [ let l := fresh "l" in intros l ->; cbn [objects];
    specialize (Hw l eq_refl); kept_object
  | lazymatch type of Hnd with
    | dict_of _ ?w = None =>
        destruct w as [| | | |?l]; [done..|];
        let o := fresh "o" in let Ho := fresh "Ho" in
        destruct (Hw _ eq_refl) as [o Ho];
        unfold dict_of in *; cbn [objects] in *;
        rewrite ?lookup_insert_ne by congruence;
        rewrite lookup_insert; case_decide; [done|];
        rewrite ?lookup_insert_ne by congruence; done
    end ].

(** X1. Where the star import binds no html_static_path, loading raises
    NameError for that name, whatever else is bound. *)
Theorem conf_static_path_unbound st :
  globals st !! "html_static_path" = None →
  conf st = inl (NameError "html_static_path").
Proof.
  destruct st as [h g]. intros Hsp. apply outcome_raises.
  run_to_static_path.
  apply outcome_bind, outcome_getglobal_unbound; [by name_lookup|done].
Qed.

Lemma conf_static_path_unbound_example :
  conf (State ∅ {[ "html_context" := VNone ]})
  = inl (NameError "html_static_path").
Proof.
  apply (conf_static_path_unbound (State ∅ {[ "html_context" := VNone ]})).
  reflexivity.
Defined.

(** X2. Where html_static_path is bound to a built-in value other than a
    list (None, a boolean, an integer, a string, a plain tuple or a plain
    dictionary), loading raises TypeError at the in-place addition. *)
Theorem conf_static_path_not_list st v :
  globals st !! "html_static_path" = Some v →
  has_object st v →
  list_items st v = None →
  conf st = inl TypeError.
Proof.
  destruct st as [h g]. intros Hsp Hv Hnl. apply outcome_raises.
  run_to_static_path. fail_get.
  by apply outcome_bind, outcome_iadd_list_error.
Qed.

Lemma conf_static_path_not_list_example :
  conf tuple_path_defaults = inl TypeError.
Proof.
  apply (conf_static_path_not_list tuple_path_defaults (VRef 1%positive)).
  - reflexivity.
  - intros l [= <-]. exists (OTuple [VStr "_shared_static"]). reflexivity.
  - reflexivity.
Defined.

(** X3. Where html_static_path is a list but the star import binds no
    html_context, loading raises NameError for html_context. *)
Theorem conf_context_unbound st ls xs :
  globals st !! "html_static_path" = Some (VRef ls) →
  objects st !! ls = Some (OList xs) →
  globals st !! "html_context" = None →
  conf st = inl (NameError "html_context").
Proof.
  destruct st as [h g]. intros Hsp Hls Hctx. apply outcome_raises.
  run_to_static_path. fail_get. run_to_context Hls.
  apply outcome_bind, outcome_getglobal_unbound; [by name_lookup|done].
Qed.

Lemma conf_context_unbound_example :
  conf no_context_defaults = inl (NameError "html_context").
Proof.
  apply (conf_context_unbound no_context_defaults 1%positive []);
    reflexivity.
Defined.

(** X4. Where html_static_path is a list and html_context is bound to a
    built-in value other than a dictionary (None, a boolean, an integer, a
    string, a plain tuple or a list, the static path list itself included),
    loading raises AttributeError for update. *)
Theorem conf_context_not_dict st ls xs v :
  globals st !! "html_static_path" = Some (VRef ls) →
  objects st !! ls = Some (OList xs) →
  globals st !! "html_context" = Some v →
  has_object st v →
  dict_of st v = None →
  conf st = inl (AttributeError "update").
Proof.
  destruct st as [h g]. intros Hsp Hls Hctx Hv Hnd. apply outcome_raises.
  run_to_static_path. fail_get. run_to_context Hls. fail_get.
  update_fails Hv Hnd.
Qed.

Lemma conf_context_not_dict_example :
  conf list_context_defaults = inl (AttributeError "update").
Proof.
  apply (conf_context_not_dict list_context_defaults 1%positive []
           (VRef 1%positive)).
  - reflexivity.
  - reflexivity.
  - reflexivity.
  - intros l [= <-]. exists (OList []). reflexivity.
  - reflexivity.
Defined.

(** From a state whose names are bound to objects, loading returns only
    from the shared defaults and raises only for one of the four causes. *)
Lemma conf_outcome st :
  bound_objects st →
  match conf st with
  | inr _ => ∃ ls xs lc d0, shared_defaults st ls xs lc d0
  | inl e => failure_cause st e
  end.
Proof.
  destruct st as [h g]. intros Hwf. unfold failure_cause. simpl in *.
  destruct (g !! "html_static_path") as [v|] eqn:Hsp.
  2: { assert (Hfail : conf (State h g) = inl (NameError "html_static_path")).
       { apply outcome_raises. run_to_static_path.
         apply outcome_bind, outcome_getglobal_unbound; [by name_lookup|done]. }
       rewrite Hfail. by left. }
  assert (Hv : has_object (State h g) v)
    by (intros l ->; by apply (Hwf _ _ Hsp)).
  destruct (list_items (State h g) v) as [xs|] eqn:Hxs.
  2: { assert (Hfail : conf (State h g) = inl TypeError).
       { apply outcome_raises. run_to_static_path. fail_get.
         by apply outcome_bind, outcome_iadd_list_error. }
       rewrite Hfail. right; left. eauto. }
  destruct (list_items_Some _ _ _ Hxs) as (ls & -> & Hls). simpl in Hls.
  destruct (g !! "html_context") as [w|] eqn:Hctx.
  2: { assert (Hfail : conf (State h g) = inl (NameError "html_context")).
       { apply outcome_raises. run_to_static_path. fail_get.
         run_to_context Hls.
         apply outcome_bind, outcome_getglobal_unbound; [by name_lookup|done]. }
       rewrite Hfail. right; right; left. eauto 6. }
  assert (Hw : has_object (State h g) w)
    by (intros l ->; by apply (Hwf _ _ Hctx)).
  destruct (dict_of (State h g) w) as [d|] eqn:Hd.
  { destruct (dict_of_Some _ _ _ Hd) as (lc & -> & Hlc).
    assert (Hdef : shared_defaults (State h g) ls xs lc d) by done.
    destruct (conf_loaded _ _ _ _ _ Hdef) as (st1 & _ & Hload & _).
    unfold loads in Hload. rewrite Hload. eauto. }
  assert (Hfail : conf (State h g) = inl (AttributeError "update")).
  { apply outcome_raises. run_to_static_path. fail_get.
    run_to_context Hls. fail_get. update_fails Hw Hd. }
  rewrite Hfail. right; right; right. eauto 8.
Qed.

(** X5. Where html_static_path and html_context are unbound or bound to
    built-in values (None, booleans, integers, strings, plain tuples, lists
    and dictionaries with string keys), loading raises nothing but these
    four: NameError for html_static_path when it is unbound; TypeError when
    it is bound to a value that is no list; with a list there, NameError for
    html_context when that is unbound, and AttributeError for update when it
    is bound to a value that is no dictionary. With a list and a plain
    dictionary nothing fails: the update itself never raises. *)
Theorem conf_raises_only st e :
  bound_objects st →
  conf st = inl e →
  failure_cause st e.
Proof.
  intros Hwf Hrun. pose proof (conf_outcome st Hwf) as Hout.
  by rewrite Hrun in Hout.
Qed.

Lemma conf_raises_only_example :
  failure_cause list_context_defaults (AttributeError "update").
Proof.
  apply (conf_raises_only list_context_defaults (AttributeError "update")).
  - apply bound_objects_checked, (bool_decide_unpack _). vm_compute. exact I.
  - vm_compute. reflexivity.
Defined.

(** ** When loading returns *)

(** X6. Among the states that bind html_static_path and html_context to
    built-in values (None, booleans, integers, strings, plain tuples, lists
    and dictionaries with string keys) or leave them unbound, the module
    loads if and only if html_static_path is bound to a list and
    html_context to a dictionary. *)
Theorem loads_exactly_from_defaults st0 :
  bound_objects st0 →
  (∃ st1, loads st0 st1) ↔ (∃ ls xs lc d0, shared_defaults st0 ls xs lc d0).
Proof.
  intros Hwf. split.
  - intros [st1 Hrun]. pose proof (conf_outcome st0 Hwf) as Hout.
    unfold loads in Hrun. by rewrite Hrun in Hout.
  - intros (ls & xs & lc & d0 & Hd).
    destruct (conf_loaded st0 ls xs lc d0 Hd) as (st1 & _ & Hrun & _). eauto.
Qed.

Lemma loads_exactly_from_defaults_example :
  (∃ st1, loads example_defaults st1) ↔
  (∃ ls xs lc d0, shared_defaults example_defaults ls xs lc d0).
Proof.
  apply (loads_exactly_from_defaults example_defaults).
  apply bound_objects_checked, (bool_decide_unpack _). vm_compute. exact I.
Defined.

(** ** What loading creates and what it leaves alone *)

Lemma conf_wp_new st0 ls xs lc d0 :
  shared_defaults st0 ls xs lc d0 →
  wp conf (λ _ st1, ∃ ids, loaded st0 ls xs lc d0 ids st1 ∧ created_new st0 ids)
    st0.
Proof.
  destruct st0 as [h g]. intros (Hsp & Hls & Hctx & Hlc). simpl in *.
  unfold conf, tuple.
  do 2 step_set. step_get. apply wp_bind, wp_str_add. do 4 step_set.
  step_get.
  eapply wp_bind, wp_iadd_list; [done|]. intros ltmp Htmp.
  do 2 step_set.
  unfold dict_display. step_alloc lt Ht. step_set.
  step_alloc n1 Hn1. step_alloc n2 Hn2. step_alloc n3 Hn3.
  step_alloc ln Hln. step_set.
  step_get.
  eapply wp_bind, (wp_getattr_update lc d0); [by store_lookup|].
  do 6 step_get.
  step_alloc s1 Hs1. step_alloc s2 Hs2. step_alloc lso Hlso.
  eapply (wp_dict_update lc d0); [by store_lookup|]. intros lu Hlu.
  fresh_facts Hlu.
  exists (Created lt ln n1 n2 n3 lso s1 s2). split.
  - split; simpl; try (store_lookup; fail).
    intros l Hl1 Hl2 [o Ho]. store_lookup.
  - split; unfold created_list; simpl.
    + repeat (apply NoDup_cons_2;
              [rewrite ?elem_of_cons, elem_of_nil; intuition congruence|]).
      apply NoDup_nil_2.
    + intros l Hl.
      repeat (apply elem_of_cons in Hl as [->|Hl]; [done|]).
      by apply elem_of_nil in Hl.
Qed.

Lemma conf_loaded_new st0 ls xs lc d0 :
  shared_defaults st0 ls xs lc d0 →
  ∃ st1 ids,
    loads st0 st1 ∧ loaded st0 ls xs lc d0 ids st1 ∧ created_new st0 ids.
Proof.
  intros Hd.
  destruct (wp_elim _ _ _ (conf_wp_new st0 ls xs lc d0 Hd))
    as ([] & st1 & Hrun & ids & Hst1 & Hnew).
  eauto.
Qed.

(** Membership in the list of created objects. *)
Ltac created_in := unfold created_list; solve [repeat constructor].

(** X7. Loading changes no object it did not create, apart from the two it
    is written to change: every object of the initial store other than the
    html_static_path list and the html_context dictionary is the same
    afterwards, and no object of the initial store is gone. *)
Theorem load_object_frame st0 ls xs lc d0 :
  shared_defaults st0 ls xs lc d0 →
  ∃ st1,
    loads st0 st1 ∧
    (∀ l o, objects st0 !! l = Some o → l ≠ ls → l ≠ lc →
       objects st1 !! l = Some o) ∧
    (∀ l, is_Some (objects st0 !! l) → is_Some (objects st1 !! l)).
Proof.
  intros Hd.
  destruct (conf_loaded st0 ls xs lc d0 Hd) as (st1 & ids & Hrun & Hst1).
  exists st1. split; [done|]. split.
  - intros l o Hl Hls Hlc. rewrite (ld_frame Hst1) by eauto. done.
  - intros l Hl.
    destruct (decide (l = ls)) as [->|Hls];
      [rewrite (ld_static_path Hst1); eauto|].
    destruct (decide (l = lc)) as [->|Hlc];
      [rewrite (ld_context Hst1); eauto|].
    by rewrite (ld_frame Hst1).
Qed.

Lemma load_object_frame_example :
  ∃ st1,
    loads example_defaults st1 ∧
    (∀ l o, objects example_defaults !! l = Some o →
       l ≠ 1%positive → l ≠ 2%positive →
       objects st1 !! l = Some o) ∧
    (∀ l, is_Some (objects example_defaults !! l) →
       is_Some (objects st1 !! l)).
Proof.
  apply (load_object_frame example_defaults 1%positive
           example_static_path 2%positive example_context).
  repeat split; reflexivity.
Defined.

(** X8. Loading binds the ten names it assigns and rebinds no other: under
    every other name, html_context among them, the namespace holds
    afterwards what the star import had bound, or nothing if it had bound
    nothing. *)
Theorem load_name_frame st0 ls xs lc d0 :
  shared_defaults st0 ls xs lc d0 →
  ∃ st1,
    loads st0 st1 ∧
    (∀ x, x ∈ assigned → is_Some (globals st1 !! x)) ∧
    ("html_context" ∉ assigned) ∧
    (∀ x, x ∉ assigned → globals st1 !! x = globals st0 !! x).
Proof.
  intros Hd.
  destruct (conf_loaded st0 ls xs lc d0 Hd) as (st1 & ids & Hrun & Hst1).
  exists st1. split; [done|]. split.
  { unfold assigned. intros x Hx.
    repeat (apply elem_of_cons in Hx as [->|Hx];
            [eexists; by read_global Hst1|]).
    by apply elem_of_nil in Hx. }
  split.
  { unfold assigned. rewrite !not_elem_of_cons. repeat split; try discriminate.
    apply not_elem_of_nil. }
  intros x Hx. rewrite (ld_globals Hst1). unfold bound_names.
  repeat (rewrite lookup_insert_ne;
          [|intros <-; apply Hx; unfold assigned; solve [repeat constructor]]).
  done.
Qed.

Lemma load_name_frame_example :
  ∃ st1,
    loads example_defaults st1 ∧
    (∀ x, x ∈ assigned → is_Some (globals st1 !! x)) ∧
    ("html_context" ∉ assigned) ∧
    (∀ x, x ∉ assigned → globals st1 !! x = globals example_defaults !! x).
Proof.
  apply (load_name_frame example_defaults 1%positive
           example_static_path 2%positive example_context).
  repeat split; reflexivity.
Defined.

(** X9. After loading, html_theme is 'sphinx_ioam_theme' and
    html_theme_options is a dictionary the script created, not an object of
    the shared defaults, with exactly the keys logo and favicon; the
    commented-out css option is absent. *)
Theorem theme_options_created st0 ls xs lc d0 :
  shared_defaults st0 ls xs lc d0 →
  ∃ st1 lt d,
    loads st0 st1 ∧
    globals st1 !! "html_theme" = Some (VStr "sphinx_ioam_theme") ∧
    globals st1 !! "html_theme_options" = Some (VRef lt) ∧
    objects st0 !! lt = None ∧
    objects st1 !! lt = Some (ODict d) ∧
    d !! "logo" = Some (VStr "pyviz-logo.png") ∧
    d !! "favicon" = Some (VStr "favicon.ico") ∧
    d !! "css" = None ∧
    ∀ k, k ≠ "logo" → k ≠ "favicon" → d !! k = None.
Proof.
  intros Hd.
  destruct (conf_loaded_new st0 ls xs lc d0 Hd)
    as (st1 & ids & Hrun & Hst1 & Hnd & Hnew).
  exists st1, (id_theme ids); eexists.
  split; [done|].
  split; [by read_global Hst1|].
  split; [by read_global Hst1|].
  split; [apply Hnew; created_in|].
  split; [apply (ld_theme_options Hst1)|].
  unfold dict_entries. simpl.
  do 3 (split; [reflexivity|]).
  intros k Hlogo Hfav. rewrite !lookup_insert_ne by done. apply lookup_empty.
Qed.

Lemma theme_options_created_example :
  ∃ st1 lt d,
    loads example_defaults st1 ∧
    globals st1 !! "html_theme" = Some (VStr "sphinx_ioam_theme") ∧
    globals st1 !! "html_theme_options" = Some (VRef lt) ∧
    objects example_defaults !! lt = None ∧
    objects st1 !! lt = Some (ODict d) ∧
    d !! "logo" = Some (VStr "pyviz-logo.png") ∧
    d !! "favicon" = Some (VStr "favicon.ico") ∧
    d !! "css" = None ∧
    ∀ k, k ≠ "logo" → k ≠ "favicon" → d !! k = None.
Proof.
  apply (theme_options_created example_defaults 1%positive
           example_static_path 2%positive example_context).
  repeat split; reflexivity.
Defined.



(** X11. The in-place addition does not rebind html_static_path to a new
    list, it extends the list the star import bound: after loading, any
    other name bound to that list and any html_context entry outside the
    eight written keys that refers to it still refer to it, and so see
    '_static' appended. *)
Theorem static_path_extended_in_place st0 ls xs lc d0 :
  shared_defaults st0 ls xs lc d0 →
  ∃ st1,
    loads st0 st1 ∧
    list_items st1 (VRef ls) = Some (xs ++ [VStr "_static"]) ∧
    (∀ y, y ∉ assigned → globals st0 !! y = Some (VRef ls) →
       globals st1 !! y = Some (VRef ls)) ∧
    (∀ k, k ∉ context_keys → d0 !! k = Some (VRef ls) →
       context_slot st1 k = Some (VRef ls)).
Proof.
  intros Hd.
  destruct (conf_loaded st0 ls xs lc d0 Hd) as (st1 & ids & Hrun & Hst1).
  exists st1. split; [done|]. split; [|split].
  - unfold list_items. by rewrite (ld_static_path Hst1).
  - intros y Hy Hy0. rewrite (ld_globals Hst1). unfold bound_names.
    repeat (rewrite lookup_insert_ne;
            [|intros <-; apply Hy; unfold assigned; solve [repeat constructor]]).
    done.
  - intros k Hk Hk0. rewrite (loaded_context_slot Hd Hst1).
    rewrite lookup_union_r; [done|]. by apply context_entries_other.
Qed.

Lemma static_path_extended_in_place_example :
  ∃ st1,
    loads alias_defaults st1 ∧
    list_items st1 (VRef 1%positive) =
      Some ([VStr "_shared_static"] ++ [VStr "_static"]) ∧
    (∀ y, y ∉ assigned → globals alias_defaults !! y = Some (VRef 1%positive) →
       globals st1 !! y = Some (VRef 1%positive)) ∧
    (∀ k, k ∉ context_keys →
       ({[ "static_dirs" := VRef 1%positive ]} : gmap string value) !! k
         = Some (VRef 1%positive) →
       context_slot st1 k = Some (VRef 1%positive)).
Proof.
  apply (static_path_extended_in_place alias_defaults 1%positive
           [VStr "_shared_static"] 2%positive
           {[ "static_dirs" := VRef 1%positive ]}).
  repeat split; reflexivity.
Defined.

(** X12. The update replaces what the defaults held under the keys it
    writes: whatever html_context had there, after loading WEBSITE_SERVER is
    'https://pyviz.github.io/holoplot', and PROJECT, DESCRIPTION, AUTHOR and
    VERSION are the module's own project, description, authors and
    version. *)
Theorem context_update_overrides st0 ls xs lc d0 :
  shared_defaults st0 ls xs lc d0 →
  ∃ st1,
    loads st0 st1 ∧
    context_slot st1 "WEBSITE_SERVER" =
      Some (VStr "https://pyviz.github.io/holoplot") ∧
    context_slot st1 "PROJECT" = Some (VStr "HoloPlot") ∧
    context_slot st1 "DESCRIPTION" =
      Some (VStr "A high-level plotting API for the PyData ecosystem built on HoloViews") ∧
    context_slot st1 "AUTHOR" = Some (VStr "Philipp Rudiger") ∧
    context_slot st1 "VERSION" = Some (VStr "0.0.1") ∧
    globals st1 !! "description" = context_slot st1 "DESCRIPTION" ∧
    globals st1 !! "authors" = context_slot st1 "AUTHOR".
Proof.
  intros Hd.
  destruct (conf_loaded st0 ls xs lc d0 Hd) as (st1 & ids & Hrun & Hst1).
  exists st1. split; [done|].
  rewrite !(loaded_context_slot Hd Hst1).
  do 5 (split; [by apply union_lookup_written|]).
  split; (etrans; [by read_global Hst1 | symmetry; by apply union_lookup_written]).
Qed.

Lemma context_update_overrides_example :
  ∃ st1,
    loads stale_defaults st1 ∧
    context_slot st1 "WEBSITE_SERVER" =
      Some (VStr "https://pyviz.github.io/holoplot") ∧
    context_slot st1 "PROJECT" = Some (VStr "HoloPlot") ∧
    context_slot st1 "DESCRIPTION" =
      Some (VStr "A high-level plotting API for the PyData ecosystem built on HoloViews") ∧
    context_slot st1 "AUTHOR" = Some (VStr "Philipp Rudiger") ∧
    context_slot st1 "VERSION" = Some (VStr "0.0.1") ∧
    globals st1 !! "description" = context_slot st1 "DESCRIPTION" ∧
    globals st1 !! "authors" = context_slot st1 "AUTHOR".
Proof.
  apply (context_update_overrides stale_defaults 1%positive [] 2%positive
           {[ "WEBSITE_SERVER" := VStr "http://localhost";
              "PROJECT" := VNone;
              "AUTHOR" := VStr "nbsite" ]}).
  repeat split; reflexivity.
Defined.

(** ** Loading again *)

(** X13. Loading is not idempotent on the shared list. When the module body
    runs a second time over the objects the first run left (in the same
    namespace, or in a new one where the star import binds html_static_path
    and html_context to the same objects), it returns again and
    html_static_path ends with '_static' twice. html_context does not grow:
    its entries outside the eight written keys are still those of the
    defaults, and NAV is a three-entry table again. *)
Theorem reload_appends_again st0 ls xs lc d0 :
  shared_defaults st0 ls xs lc d0 →
  ∃ st1,
    loads st0 st1 ∧
    ∀ g' : gmap string value,
      g' !! "html_static_path" = Some (VRef ls) →
      g' !! "html_context" = Some (VRef lc) →
      ∃ st2 d2 nav2,
        loads (State (objects st1) g') st2 ∧
        list_items st2 (VRef ls) =
          Some (xs ++ [VStr "_static"; VStr "_static"]) ∧
        dict_of st2 (VRef lc) = Some d2 ∧
        (∀ k, k ∉ context_keys → d2 !! k = d0 !! k) ∧
        d2 !! "NAV" = Some (VRef nav2) ∧
        pair_table st2 (VRef nav2) =
          Some [("Getting Started", "getting_started/index");
                ("User Guide", "user_guide/index");
                ("About", "about")].
Proof.
  intros Hd.
  destruct (conf_loaded st0 ls xs lc d0 Hd) as (st1 & ids & Hrun & Hst1).
  exists st1. split; [done|]. intros g' Hsp' Hctx'.
  assert (Hd' : shared_defaults (State (objects st1) g') ls
                  (xs ++ [VStr "_static"]) lc
                  (dict_entries (context_entries (id_nav ids) (id_social ids))
                     ∪ d0)).
  { repeat split; simpl; [done| apply (ld_static_path Hst1) |done|].
    apply (ld_context Hst1). }
  destruct (conf_loaded _ _ _ _ _ Hd') as (st2 & ids2 & Hrun2 & Hst2).
  exists st2; eexists; exists (id_nav ids2).
  split; [done|]. split.
  { unfold list_items. rewrite (ld_static_path Hst2).
    by rewrite <- (assoc_L (++)). }
  split; [apply (loaded_context_dict Hst2)|]. split.
  { intros k Hk. rewrite !lookup_union_r; [done|by apply context_entries_other..]. }
  split; [by apply union_lookup_written|].
  apply (loaded_nav_table Hst2).
Qed.

Lemma reload_appends_again_example :
  ∃ st1,
    loads example_defaults st1 ∧
    ∀ g' : gmap string value,
      g' !! "html_static_path" = Some (VRef 1%positive) →
      g' !! "html_context" = Some (VRef 2%positive) →
      ∃ st2 d2 nav2,
        loads (State (objects st1) g') st2 ∧
        list_items st2 (VRef 1%positive) =
          Some (example_static_path ++ [VStr "_static"; VStr "_static"]) ∧
        dict_of st2 (VRef 2%positive) = Some d2 ∧
        (∀ k, k ∉ context_keys → d2 !! k = example_context !! k) ∧
        d2 !! "NAV" = Some (VRef nav2) ∧
        pair_table st2 (VRef nav2) =
          Some [("Getting Started", "getting_started/index");
                ("User Guide", "user_guide/index");
                ("About", "about")].
Proof.
  apply (reload_appends_again example_defaults 1%positive
           example_static_path 2%positive example_context).
  repeat split; reflexivity.
Defined.
